(** * kstudio: the agent-builder front end (API client and root controller)

    A shallow embedding of [app/services/api.ts], of the root page
    component [Home] and of the type-change handler of
    [app/components/AgentCreationForm.tsx], with the properties of the
    specification that concern them.

    Conventions of the embedding.
    - A JavaScript string is a [string]: a sequence of code units below
      U+0100 (one [ascii] per code unit).
    - A JavaScript object used as a mapping ([Record<string, any>]) is a
      [gmap string Json].
    - An [async] function is a computation in the monad [Api]: it threads
      the [World] (the requests sent so far and the clock) and settles as
      [Resolved] or [Rejected].  [console.error] and [console.log] have no
      effect on any value and are left out.
    - React state is the record [State]; a handler reads the snapshot it
      closed over and applies the setters in program order. *)

From stdpp Require Import gmap strings list pretty.
From Stdlib Require Import Ascii.

Set Warnings "-register-all".

(** ** JavaScript primitives used by the sources *)

Module Js.

(** The line feed written [\n] in the sources. *)
Definition LF : string := String "010"%char EmptyString.

(** Truthiness of a string: every string but the empty one. *)
Definition truthy (s : string) : bool :=
  match s with
  | EmptyString => false
  | String _ _ => true
  end.

(** Truthiness of an optional string property ([undefined] is falsy). *)
Definition truthy_opt (o : option string) : bool :=
  match o with
  | None => false
  | Some s => truthy s
  end.

(** [a || b] on an optional string and a string default. *)
Definition or_else (o : option string) (d : string) : string :=
  match o with
  | Some s => if truthy s then s else d
  | None => d
  end.

(** WhiteSpace and LineTerminator code units below U+0100: TAB, LF, VT,
    FF, CR, SP and NBSP. *)
Definition isWhiteSpace (c : ascii) : bool :=
  let n := N_of_ascii c in
  ((9 <=? n) && (n <=? 13) || (n =? 32) || (n =? 160))%N.

Fixpoint trimStart (s : string) : string :=
  match s with
  | EmptyString => EmptyString
  | String c r => if isWhiteSpace c then trimStart r else s
  end.

Fixpoint trimEnd (s : string) : string :=
  match s with
  | EmptyString => EmptyString
  | String c r =>
      match trimEnd r with
      | EmptyString => if isWhiteSpace c then EmptyString else String c EmptyString
      | r' => String c r'
      end
  end.

(** [String.prototype.trim]. *)
Definition trim (s : string) : string := trimEnd (trimStart s).

(** A string made of white space only (the empty string included). *)
Fixpoint blank (s : string) : bool :=
  match s with
  | EmptyString => true
  | String c r => isWhiteSpace c && blank r
  end.

(** Lower case of one code unit: A-Z, and the Latin-1 capitals U+00C0 to
    U+00DE but the multiplication sign U+00D7. *)
Definition lowerChar (c : ascii) : ascii :=
  let n := N_of_ascii c in
  if ((65 <=? n) && (n <=? 90)
      || (192 <=? n) && (n <=? 222) && negb (n =? 215))%N
  then ascii_of_N (n + 32) else c.

(** [String.prototype.toLowerCase]. *)
Fixpoint toLowerCase (s : string) : string :=
  match s with
  | EmptyString => EmptyString
  | String c r => String (lowerChar c) (toLowerCase r)
  end.

(** [Array.prototype.join] on an array of strings. *)
Fixpoint join (sep : string) (l : list string) : string :=
  match l with
  | [] => ""
  | [x] => x
  | x :: r => x +:+ sep +:+ join sep r
  end.

(** [Array.prototype.slice(-n)]: the last [n] elements, or the whole
    array when it has fewer. *)
Definition slice_last {A : Type} (n : nat) (l : list A) : list A :=
  drop (List.length l - n) l.

(** [Array.prototype.includes] on an array of strings. *)
Definition includes (l : list string) (x : string) : bool :=
  existsb (String.eqb x) l.

End Js.

(** ** JSON values held in a configuration mapping *)

Inductive Json : Type :=
| JNull
| JBool (b : bool)
| JNum (n : Z)
| JStr (s : string)
| JArr (l : list Json).

(** ** [app/types/index.ts] *)

Inductive Role : Type := user | assistant.

Module Message.
Record t : Type := mk {
  role : Role;
  content : string;
  timestamp : string;
  language : option string;
  code : option (list string);
  error : option bool
}.
End Message.

Inductive AgentType : Type := conversational | rag | tool_calling | coding.

(** The string literal an [AgentType] stands for. *)
Definition AgentType_id (t : AgentType) : string :=
  match t with
  | conversational => "conversational"
  | rag => "rag"
  | tool_calling => "tool_calling"
  | coding => "coding"
  end.

Definition AgentType_eqb (a b : AgentType) : bool :=
  match a, b with
  | conversational, conversational | rag, rag
  | tool_calling, tool_calling | coding, coding => true
  | _, _ => false
  end.

Module SelectedTool.
Record t : Type := mk { name : string; description : string }.
End SelectedTool.

Inductive CodingMode : Type := generate | troubleshoot | explain.

Definition CodingMode_id (m : CodingMode) : string :=
  match m with
  | generate => "generate"
  | troubleshoot => "troubleshoot"
  | explain => "explain"
  end.

(** ** [app/services/api.ts]: the data *)

Inductive Status : Type := active | inactive.

Module Agent.
(** [type] is a string: the client lower-cases whatever the server sent. *)
Record t : Type := mk {
  id : Z;
  name : string;
  type : string;
  status : Status;
  configuration : option (gmap string Json)
}.

Definition set_type (ty : string) (a : t) : t :=
  mk (id a) (name a) ty (status a) (configuration a).
End Agent.

Module PartialAgent.
(** [Partial<Agent>]: every property may be absent. *)
Record t : Type := mk {
  id : option Z;
  name : option string;
  type : option string;
  status : option Status;
  configuration : option (gmap string Json)
}.
End PartialAgent.

Module Tool.
Record t : Type := mk {
  name : string;
  description : string;
  created_by : string;
  created_at : string;
  code : option string;
  is_sample : option bool
}.

Definition set_is_sample (b : bool) (x : t) : t :=
  mk (name x) (description x) (created_by x) (created_at x) (code x) (Some b).
End Tool.

Module CreateToolRequest.
Record t : Type := mk {
  description : string;
  code : option string;
  created_by : string
}.
End CreateToolRequest.

Module CreateToolFromCodeRequest.
Record t : Type := mk {
  name : string;
  code : string;
  created_by : string
}.
End CreateToolFromCodeRequest.

Module Metadata.
(** The two properties of [metadata] the page reads. *)
Record t : Type := mk {
  language : option string;
  formatted_code : option (list string)
}.
End Metadata.

Module AgentInteractionResponse.
Record t : Type := mk {
  response : string;
  message : string;
  created_at : string;
  metadata : option Metadata.t
}.
End AgentInteractionResponse.

Module InteractionBody.
(** The body the server answers a query or an interaction with.  The
    client reads [response] and [metadata]; [message] and [created_at]
    stand for whatever else the server puts in the body. *)
Record t : Type := mk {
  response : string;
  metadata : option Metadata.t;
  message : option string;
  created_at : option string
}.
End InteractionBody.

(** ** The outside world: requests, answers, the clock *)

Inductive Method : Type := GET | POST | DELETE.

Inductive Body : Type :=
| JsonAgent (agentData : PartialAgent.t)
| JsonCreateTool (request : CreateToolRequest.t)
| JsonCreateToolFromCode (request : CreateToolFromCodeRequest.t)
| FormData (entries : list (string * string)).

Module Request.
Record t : Type := mk {
  method : Method;
  url : string;
  headers : list (string * string);
  body : option Body
}.
End Request.

(** What one [fetch] followed by [response.json()] comes to:
    - [HttpOk data]: [response.ok] holds and the body parses to [data];
    - [HttpNotOk detail]: [response.ok] fails, the body parses and has
      the [detail] property or not;
    - [HttpFail e]: [fetch] or [response.json()] rejects with [e]. *)
Inductive HttpResult (A : Type) : Type :=
| HttpOk (data : A)
| HttpNotOk (detail : option string)
| HttpFail (e : string).

Arguments HttpOk {A} data.
Arguments HttpNotOk {A} detail.
Arguments HttpFail {A} e.

Module World.
(** [sent]: the requests issued so far, oldest first; [ticks]: how many
    times the clock was read. *)
Record t : Type := mk {
  sent : list Request.t;
  ticks : nat
}.
End World.

Module Env.
(** The collaborators the client cannot see into: the clock, as the ISO
    string of its successive readings, and the server, one answer per
    family of endpoints, given the earlier requests and the request. *)
Record t : Type := mk {
  toISOString : nat -> string;
  serve_tools : list Request.t -> Request.t -> HttpResult (list Tool.t);
  serve_tool : list Request.t -> Request.t -> HttpResult Tool.t;
  serve_agent : list Request.t -> Request.t -> HttpResult Agent.t;
  serve_interaction :
    list Request.t -> Request.t -> HttpResult InteractionBody.t
}.
End Env.

(** How a promise settles; a rejection carries the message of its
    [Error]. *)
Inductive Outcome (A : Type) : Type :=
| Resolved (value : A)
| Rejected (reason : string).

Arguments Resolved {A} value.
Arguments Rejected {A} reason.

Definition Api (A : Type) : Type := World.t -> Outcome A * World.t.

Definition ret {A : Type} (a : A) : Api A := fun w => (Resolved a, w).

Definition throw {A : Type} (e : string) : Api A := fun w => (Rejected e, w).

Definition bind {A B : Type} (m : Api A) (k : A -> Api B) : Api B :=
  fun w =>
    match m w with
    | (Resolved a, w') => k a w'
    | (Rejected e, w') => (Rejected e, w')
    end.

Notation "'await' x <- m ; k" := (bind m (fun x => k))
  (at level 10, x name, m at level 100, k at level 200,
   format "'[v' 'await'  x  <-  m ; '/' k ']'").

(** [fetch(url, init)] then [response.json()]: the request is recorded and
    the server answers it. *)
Definition fetch {A : Type}
    (serve : list Request.t -> Request.t -> HttpResult A)
    (req : Request.t) : Api (HttpResult A) :=
  fun w =>
    (Resolved (serve (World.sent w) req),
     World.mk (World.sent w ++ [req]) (World.ticks w)).

(** [new Date().toISOString()]. *)
Definition Date_toISOString (env : Env.t) : Api string :=
  fun w =>
    (Resolved (Env.toISOString env (World.ticks w)),
     World.mk (World.sent w) (S (World.ticks w))).

(** The common tail of every client function: rethrow what [fetch] or
    [response.json()] threw, throw [data.detail || fallback] when the
    response is not ok, go on with the body otherwise.  The enclosing
    [catch] logs and rethrows, so it changes no outcome. *)
Definition expect_ok {A B : Type} (fallback : string) (r : HttpResult A)
    (k : A -> Api B) : Api B :=
  match r with
  | HttpFail e => throw e
  | HttpNotOk detail => throw (Js.or_else detail fallback)
  | HttpOk data => k data
  end.

(** ** [app/services/api.ts]: the client functions *)

Definition API_BASE_URL : string :=
  "https://silver-space-succotash-4g7r45pq64rfjv7-8000.app.github.dev".

Definition json_headers : list (string * string) :=
  [("Content-Type", "application/json")].

Module api.

(** [tool.is_sample || ['multiply', 'add'].includes(tool.name)] *)
Definition sample_flag (tool : Tool.t) : bool :=
  match Tool.is_sample tool with
  | Some true => true
  | Some false | None => Js.includes ["multiply"; "add"] (Tool.name tool)
  end.

Definition listTools (env : Env.t) : Api (list Tool.t) :=
  await response <- fetch (Env.serve_tools env)
    (Request.mk GET (API_BASE_URL +:+ "/tools") [] None);
  expect_ok "Failed to list tools" response (fun data =>
    ret (map (fun tool => Tool.set_is_sample (sample_flag tool) tool) data)).

Definition getTool (env : Env.t) (name : string) : Api Tool.t :=
  await response <- fetch (Env.serve_tool env)
    (Request.mk GET (API_BASE_URL +:+ "/tools/" +:+ name) [] None);
  expect_ok "Failed to get tool" response (fun data =>
    ret (Tool.set_is_sample (sample_flag data) data)).

Definition createTool (env : Env.t) (request : CreateToolRequest.t)
    : Api Tool.t :=
  await response <- fetch (Env.serve_tool env)
    (Request.mk POST (API_BASE_URL +:+ "/tools") json_headers
       (Some (JsonCreateTool request)));
  expect_ok "Failed to create tool" response (fun data =>
    ret (Tool.set_is_sample false data)).

Definition createToolFromCode (env : Env.t)
    (request : CreateToolFromCodeRequest.t) : Api Tool.t :=
  await response <- fetch (Env.serve_tool env)
    (Request.mk POST (API_BASE_URL +:+ "/tools/code") json_headers
       (Some (JsonCreateToolFromCode request)));
  expect_ok "Failed to create tool from code" response (fun data =>
    ret (Tool.set_is_sample false data)).

(** The object [createAgent] posts:
    [{...agent, status: agent.status || 'active',
      configuration: agent.configuration || {}}]. *)
Definition agentData (agent : PartialAgent.t) : PartialAgent.t :=
  PartialAgent.mk
    (PartialAgent.id agent)
    (PartialAgent.name agent)
    (PartialAgent.type agent)
    (Some (default active (PartialAgent.status agent)))
    (Some (default ∅ (PartialAgent.configuration agent))).

Definition createAgent_request (agent : PartialAgent.t) : Request.t :=
  Request.mk POST (API_BASE_URL +:+ "/agents/") json_headers
    (Some (JsonAgent (agentData agent))).

Definition createAgent (env : Env.t) (agent : PartialAgent.t)
    : Api Agent.t :=
  if negb (Js.truthy_opt (PartialAgent.name agent))
     || negb (Js.truthy_opt (PartialAgent.type agent))
  then throw "Agent name and type are required"
  else
    await response <- fetch (Env.serve_agent env) (createAgent_request agent);
    expect_ok "Failed to create agent" response (fun data =>
      ret (Agent.set_type (Js.toLowerCase (Agent.type data)) data)).

(** The form of [queryAgent]: [query], then one entry per property of
    [context] in the order of [Object.entries].  The values of a context
    are strings wherever the page builds one, and [toString] leaves a
    string as it is. *)
Definition query_form (query : string)
    (context : option (list (string * string))) : list (string * string) :=
  ("query", query) ::
  match context with
  | Some entries => map (fun '(key, value) => (key, value)) entries
  | None => []
  end.

Definition queryAgent_request (agentId : Z) (query : string)
    (context : option (list (string * string))) : Request.t :=
  Request.mk POST
    (API_BASE_URL +:+ "/agents/" +:+ pretty agentId +:+ "/query") []
    (Some (FormData (query_form query context))).

Definition queryAgent (env : Env.t) (agentId : Z) (query : string)
    (context : option (list (string * string)))
    : Api AgentInteractionResponse.t :=
  await response <- fetch (Env.serve_interaction env)
    (queryAgent_request agentId query context);
  expect_ok "Failed to query agent" response (fun data =>
    await created_at <- Date_toISOString env;
    ret (AgentInteractionResponse.mk
           (InteractionBody.response data)
           query
           created_at
           (InteractionBody.metadata data))).

Definition interactWithAgent_request (agentId : Z) (message : string)
    : Request.t :=
  Request.mk POST
    (API_BASE_URL +:+ "/agents/" +:+ pretty agentId +:+ "/interact") []
    (Some (FormData [("message", message)])).

Definition interactWithAgent (env : Env.t) (agentId : Z) (message : string)
    : Api AgentInteractionResponse.t :=
  await response <- fetch (Env.serve_interaction env)
    (interactWithAgent_request agentId message);
  expect_ok "Failed to interact with agent" response (fun data =>
    await created_at <- Date_toISOString env;
    ret (AgentInteractionResponse.mk
           (InteractionBody.response data)
           message
           created_at
           (InteractionBody.metadata data))).

End api.

(** ** The root controller [Home]: its state *)

Module NewAgent.
(** The draft of the agent being created. *)
Record t : Type := mk {
  name : string;
  type : AgentType;
  configuration : gmap string Json
}.
End NewAgent.

(** One field per [useState] of [Home], in the order of the source. *)
Record State : Type := mkState {
  agents : list Agent.t;
  selectedAgent : option Agent.t;
  selectedType : AgentType;
  isCreating : bool;
  isLoading : bool;
  error : option string;
  newAgent : NewAgent.t;
  selectedTools : list SelectedTool.t;
  showToolManager : bool;
  message : string;
  messages : list Message.t;
  selectedLanguage : string;
  codingMode : CodingMode;
  isProcessingDocument : bool;
  hasDocument : bool;
  currentDocument : option string;
  hoveredAgent : option Z
}.

(** The setters [useState] returns. *)

Definition setAgents (v : list Agent.t) (st : State) : State :=
  mkState v (selectedAgent st) (selectedType st) (isCreating st)
      (isLoading st) (error st) (newAgent st) (selectedTools st)
      (showToolManager st) (message st) (messages st) (selectedLanguage st)
      (codingMode st) (isProcessingDocument st) (hasDocument st)
      (currentDocument st) (hoveredAgent st).

Definition setSelectedAgent (v : option Agent.t) (st : State) : State :=
  mkState (agents st) v (selectedType st) (isCreating st) (isLoading st)
      (error st) (newAgent st) (selectedTools st) (showToolManager st)
      (message st) (messages st) (selectedLanguage st) (codingMode st)
      (isProcessingDocument st) (hasDocument st) (currentDocument st)
      (hoveredAgent st).

Definition setSelectedType (v : AgentType) (st : State) : State :=
  mkState (agents st) (selectedAgent st) v (isCreating st) (isLoading st)
      (error st) (newAgent st) (selectedTools st) (showToolManager st)
      (message st) (messages st) (selectedLanguage st) (codingMode st)
      (isProcessingDocument st) (hasDocument st) (currentDocument st)
      (hoveredAgent st).

Definition setIsCreating (v : bool) (st : State) : State :=
  mkState (agents st) (selectedAgent st) (selectedType st) v
      (isLoading st) (error st) (newAgent st) (selectedTools st)
      (showToolManager st) (message st) (messages st) (selectedLanguage st)
      (codingMode st) (isProcessingDocument st) (hasDocument st)
      (currentDocument st) (hoveredAgent st).

Definition setIsLoading (v : bool) (st : State) : State :=
  mkState (agents st) (selectedAgent st) (selectedType st) (isCreating st)
      v (error st) (newAgent st) (selectedTools st) (showToolManager st)
      (message st) (messages st) (selectedLanguage st) (codingMode st)
      (isProcessingDocument st) (hasDocument st) (currentDocument st)
      (hoveredAgent st).

Definition setError (v : option string) (st : State) : State :=
  mkState (agents st) (selectedAgent st) (selectedType st) (isCreating st)
      (isLoading st) v (newAgent st) (selectedTools st) (showToolManager st)
      (message st) (messages st) (selectedLanguage st) (codingMode st)
      (isProcessingDocument st) (hasDocument st) (currentDocument st)
      (hoveredAgent st).

Definition setNewAgent (v : NewAgent.t) (st : State) : State :=
  mkState (agents st) (selectedAgent st) (selectedType st) (isCreating st)
      (isLoading st) (error st) v (selectedTools st) (showToolManager st)
      (message st) (messages st) (selectedLanguage st) (codingMode st)
      (isProcessingDocument st) (hasDocument st) (currentDocument st)
      (hoveredAgent st).

Definition setSelectedTools (v : list SelectedTool.t) (st : State) : State :=
  mkState (agents st) (selectedAgent st) (selectedType st) (isCreating st)
      (isLoading st) (error st) (newAgent st) v (showToolManager st)
      (message st) (messages st) (selectedLanguage st) (codingMode st)
      (isProcessingDocument st) (hasDocument st) (currentDocument st)
      (hoveredAgent st).

Definition setShowToolManager (v : bool) (st : State) : State :=
  mkState (agents st) (selectedAgent st) (selectedType st) (isCreating st)
      (isLoading st) (error st) (newAgent st) (selectedTools st) v
      (message st) (messages st) (selectedLanguage st) (codingMode st)
      (isProcessingDocument st) (hasDocument st) (currentDocument st)
      (hoveredAgent st).

Definition setMessage (v : string) (st : State) : State :=
  mkState (agents st) (selectedAgent st) (selectedType st) (isCreating st)
      (isLoading st) (error st) (newAgent st) (selectedTools st)
      (showToolManager st) v (messages st) (selectedLanguage st)
      (codingMode st) (isProcessingDocument st) (hasDocument st)
      (currentDocument st) (hoveredAgent st).

Definition setMessages (v : list Message.t) (st : State) : State :=
  mkState (agents st) (selectedAgent st) (selectedType st) (isCreating st)
      (isLoading st) (error st) (newAgent st) (selectedTools st)
      (showToolManager st) (message st) v (selectedLanguage st)
      (codingMode st) (isProcessingDocument st) (hasDocument st)
      (currentDocument st) (hoveredAgent st).

Definition setSelectedLanguage (v : string) (st : State) : State :=
  mkState (agents st) (selectedAgent st) (selectedType st) (isCreating st)
      (isLoading st) (error st) (newAgent st) (selectedTools st)
      (showToolManager st) (message st) (messages st) v (codingMode st)
      (isProcessingDocument st) (hasDocument st) (currentDocument st)
      (hoveredAgent st).

Definition setCodingMode (v : CodingMode) (st : State) : State :=
  mkState (agents st) (selectedAgent st) (selectedType st) (isCreating st)
      (isLoading st) (error st) (newAgent st) (selectedTools st)
      (showToolManager st) (message st) (messages st) (selectedLanguage st) v
      (isProcessingDocument st) (hasDocument st) (currentDocument st)
      (hoveredAgent st).

Definition setIsProcessingDocument (v : bool) (st : State) : State :=
  mkState (agents st) (selectedAgent st) (selectedType st) (isCreating st)
      (isLoading st) (error st) (newAgent st) (selectedTools st)
      (showToolManager st) (message st) (messages st) (selectedLanguage st)
      (codingMode st) v (hasDocument st) (currentDocument st)
      (hoveredAgent st).

Definition setHasDocument (v : bool) (st : State) : State :=
  mkState (agents st) (selectedAgent st) (selectedType st) (isCreating st)
      (isLoading st) (error st) (newAgent st) (selectedTools st)
      (showToolManager st) (message st) (messages st) (selectedLanguage st)
      (codingMode st) (isProcessingDocument st) v (currentDocument st)
      (hoveredAgent st).

Definition setCurrentDocument (v : option string) (st : State) : State :=
  mkState (agents st) (selectedAgent st) (selectedType st) (isCreating st)
      (isLoading st) (error st) (newAgent st) (selectedTools st)
      (showToolManager st) (message st) (messages st) (selectedLanguage st)
      (codingMode st) (isProcessingDocument st) (hasDocument st) v
      (hoveredAgent st).

Definition setHoveredAgent (v : option Z) (st : State) : State :=
  mkState (agents st) (selectedAgent st) (selectedType st) (isCreating st)
      (isLoading st) (error st) (newAgent st) (selectedTools st)
      (showToolManager st) (message st) (messages st) (selectedLanguage st)
      (codingMode st) (isProcessingDocument st) (hasDocument st)
      (currentDocument st) v.

(** ** Handlers: state updates around awaited calls

    A handler runs on the current state and the world.  The setters it
    has called stay applied when it throws. *)

Definition Task (A : Type) : Type :=
  State -> World.t -> Outcome A * State * World.t.

Definition tret {A : Type} (a : A) : Task A :=
  fun cur w => (Resolved a, cur, w).

Definition tbind {A B : Type} (m : Task A) (k : A -> Task B) : Task B :=
  fun cur w =>
    match m cur w with
    | (Resolved a, cur', w') => k a cur' w'
    | (Rejected e, cur', w') => (Rejected e, cur', w')
    end.

(** A setter call, [setX(v)] or [setX(prev => ...)]. *)
Definition set (f : State -> State) : Task unit :=
  fun cur w => (Resolved tt, f cur, w).

(** An awaited call of the client. *)
Definition call {A : Type} (m : Api A) : Task A :=
  fun cur w => let '(o, w') := m w in (o, cur, w').

(** [try { body } catch (err) { handler } finally { finalizer }] *)
Definition try_catch_finally (body : Task unit) (handler : string -> Task unit)
    (finalizer : Task unit) : Task unit :=
  fun cur w =>
    let '(o1, cur1, w1) := body cur w in
    let '(o2, cur2, w2) :=
      match o1 with
      | Resolved v => (Resolved v, cur1, w1)
      | Rejected err => handler err cur1 w1
      end in
    let '(o3, cur3, w3) := finalizer cur2 w2 in
    (match o3 with Rejected e => Rejected e | Resolved _ => o2 end, cur3, w3).

Notation "'let!' x := m 'in' k" := (tbind m (fun x => k))
  (at level 10, x name, m at level 100, k at level 200,
   format "'[v' 'let!'  x  :=  m  'in' '/' k ']'").

Notation "m ;; k" := (tbind m (fun _ => k))
  (at level 100, right associativity).

(** A handler of the render [st] runs from [st] itself. *)
Definition run (handler : State -> Task unit) (st : State) (w : World.t)
    : State * World.t :=
  let '(_, cur, w') := handler st st w in (cur, w').

(** ** [AgentCreationForm]: the handlers that change the draft *)

Module AgentCreationForm.

Definition default_prompt_template : string :=
  "You are a helpful AI assistant. Please respond to the following message:"
  +:+ Js.LF +:+ Js.LF +:+ "{input}".

(** [handleTypeChange], with [onAgentChange], [onToolsChange] and
    [onShowToolManagerChange] bound as [Home] binds them. *)
Definition handleTypeChange (type : AgentType) (st : State) : Task unit :=
  let defaultConfig : gmap string Json :=
    if AgentType_eqb type conversational
    then {[ "prompt_template" := JStr default_prompt_template ]}
    else ∅ in
  set (setNewAgent
         (NewAgent.mk (NewAgent.name (newAgent st)) type defaultConfig)) ;;
  if AgentType_eqb type tool_calling
  then set (setShowToolManager true)
  else set (setShowToolManager false) ;; set (setSelectedTools []).

(** [onChange] of the name input. *)
Definition handleNameChange (value : string) (st : State) : Task unit :=
  set (setNewAgent
         (NewAgent.mk value (NewAgent.type (newAgent st))
            (NewAgent.configuration (newAgent st)))).

(** [onChange] of the prompt-template text area. *)
Definition handlePromptChange (value : string) (st : State) : Task unit :=
  set (setNewAgent
         (NewAgent.mk (NewAgent.name (newAgent st))
            (NewAgent.type (newAgent st))
            (<["prompt_template" := JStr value]>
               (NewAgent.configuration (newAgent st))))).

(** What the prompt-template text area shows:
    [newAgent.configuration?.prompt_template || <the default template>]. *)
Definition shown_prompt_template (st : State) : Json :=
  match NewAgent.configuration (newAgent st) !! "prompt_template" with
  | Some (JStr s) => JStr (Js.or_else (Some s) default_prompt_template)
  | Some JNull | Some (JBool false) | Some (JNum 0%Z) | None =>
      JStr default_prompt_template
  | Some v => v
  end.

End AgentCreationForm.

(** ** The root controller [Home]: effects and handlers *)

Module Home.

(** The initial values of the [useState] calls. *)
Definition initialState : State :=
  mkState [] None conversational false false None
    (NewAgent.mk "" conversational ∅) [] false
    "" [] "python" generate
    false false None None.

Definition isCodingAgent (agent : Agent.t) : bool :=
  String.eqb (Agent.type agent) "coding".

(** The effect on [selectedAgent], for the render [st]. *)
Definition selectedAgentEffect (st : State) : Task unit :=
  match selectedAgent st with
  | Some agent =>
      set (setHasDocument false) ;;
      set (setCurrentDocument None) ;;
      set (setMessages []) ;;
      if isCodingAgent agent then set (setCodingMode generate) else tret tt
  | None => tret tt
  end.

(** The effect on [selectedType], for the render [st]. *)
Definition selectedTypeEffect (st : State) : Task unit :=
  set (fun prev =>
         setNewAgent
           (NewAgent.mk (NewAgent.name (newAgent prev)) (selectedType st) ∅)
           prev).

(** [onAgentSelect] is [setSelectedAgent]. *)
Definition onAgentSelect (agent : Agent.t) (st : State) : Task unit :=
  set (setSelectedAgent (Some agent)).

(** A change of selection: the setter, then the render, then the effect
    on [selectedAgent], which React runs because the selected agent is
    no longer the one of the render before. *)
Definition selectAgent (agent : Agent.t) (st : State) (w : World.t)
    : State * World.t :=
  let '(st1, w1) := run (onAgentSelect agent) st w in
  run selectedAgentEffect st1 w1.

Definition CodingMode_eqb (a b : CodingMode) : bool :=
  match a, b with
  | generate, generate | troubleshoot, troubleshoot | explain, explain => true
  | _, _ => false
  end.

Definition userMessage (st : State) (agent : Agent.t) (timestamp : string)
    : Message.t :=
  Message.mk user (message st) timestamp
    (if isCodingAgent agent then Some (selectedLanguage st) else None)
    None
    (Some (isCodingAgent agent && CodingMode_eqb (codingMode st) troubleshoot)).

(** [`${msg.role === 'user' ? 'User' : 'Assistant'}: ${msg.content}`] *)
Definition formatMessage (msg : Message.t) : string :=
  (match Message.role msg with user => "User" | assistant => "Assistant" end)
  +:+ ": " +:+ Message.content msg.

Definition lastFiveMessages (st : State) : string :=
  Js.join Js.LF (map formatMessage (Js.slice_last 5 (messages st))).

Definition messageWithHistory (st : State) : string :=
  if Js.truthy (lastFiveMessages st)
  then "Chat history:" +:+ Js.LF +:+ lastFiveMessages st +:+ Js.LF +:+ Js.LF
       +:+ "New message:" +:+ Js.LF +:+ message st
  else message st.

Definition queryContext (st : State) (agent : Agent.t)
    : option (list (string * string)) :=
  if isCodingAgent agent
  then Some [("language", selectedLanguage st);
             ("mode", CodingMode_id (codingMode st))]
  else None.

Definition agentMessage (st : State) (response : AgentInteractionResponse.t)
    : Message.t :=
  Message.mk assistant
    (AgentInteractionResponse.response response)
    (AgentInteractionResponse.created_at response)
    (Some (match AgentInteractionResponse.metadata response with
           | Some metadata =>
               Js.or_else (Metadata.language metadata) (selectedLanguage st)
           | None => selectedLanguage st
           end))
    (match AgentInteractionResponse.metadata response with
     | Some metadata => Metadata.formatted_code metadata
     | None => None
     end)
    None.

Definition handleMessageSend (env : Env.t) (st : State) : Task unit :=
  match selectedAgent st with
  | None => tret tt
  | Some agent =>
      if negb (Js.truthy (Js.trim (message st))) then tret tt
      else
        try_catch_finally
          (set (setIsLoading true) ;;
           let! timestamp := call (Date_toISOString env) in
           set (setMessages (messages st ++ [userMessage st agent timestamp])) ;;
           set (setMessage "") ;;
           let! response :=
             call (api.queryAgent env (Agent.id agent)
                     (messageWithHistory st) (queryContext st agent)) in
           set (fun prev =>
                  setMessages (messages prev ++ [agentMessage st response])
                    prev))
          (fun err => set (setError (Some "Failed to send message")))
          (set (setIsLoading false))
  end.

(** The state a send has reached when it awaits the answer. *)
Definition awaiting (env : Env.t) (st : State) (agent : Agent.t)
    (w : World.t) : State :=
  setMessage ""
    (setMessages
       (messages st
        ++ [userMessage st agent (Env.toISOString env (World.ticks w))])
       (setIsLoading true st)).

(** The prompt template of a tool-calling agent. *)
Definition tool_prompt_template (tools : list SelectedTool.t) : string :=
  "You are an AI assistant with access to the following tools:" +:+ Js.LF
  +:+ Js.join Js.LF
        (map (fun tool =>
                "- " +:+ SelectedTool.name tool +:+ ": "
                +:+ SelectedTool.description tool) tools)
  +:+ Js.LF +:+ Js.LF
  +:+ "Please help with the following request:" +:+ Js.LF +:+ "{input}".

(** The object handed to [api.createAgent]: the draft, its
    configuration overlaid with the tools and their prompt template when
    the type is [tool_calling]. *)
Definition agentData (st : State) : PartialAgent.t :=
  let extra : gmap string Json :=
    if AgentType_eqb (NewAgent.type (newAgent st)) tool_calling
    then <["tools" :=
             JArr (map (fun tool => JStr (SelectedTool.name tool))
                     (selectedTools st))]>
           {[ "prompt_template" :=
                JStr (tool_prompt_template (selectedTools st)) ]}
    else ∅ in
  PartialAgent.mk None
    (Some (NewAgent.name (newAgent st)))
    (Some (AgentType_id (NewAgent.type (newAgent st))))
    None
    (Some (extra ∪ NewAgent.configuration (newAgent st))).

Definition handleCreateAgent (env : Env.t) (st : State) : Task unit :=
  try_catch_finally
    (set (setIsLoading true) ;;
     set (setError None) ;;
     if AgentType_eqb (NewAgent.type (newAgent st)) tool_calling
        && (List.length (selectedTools st) =? 0)
     then
       set (setError
              (Some "Please select at least one tool for the Tool Agent")) ;;
       set (setIsLoading false)
     else
       let! agent := call (api.createAgent env (agentData st)) in
       set (setAgents (agents st ++ [agent])) ;;
       set (setIsCreating false) ;;
       set (setSelectedAgent (Some agent)) ;;
       set (setNewAgent (NewAgent.mk "" (selectedType st) ∅)) ;;
       set (setSelectedTools []) ;;
       set (setShowToolManager false))
    (fun err => set (setError (Some "Failed to create agent")))
    (set (setIsLoading false)).

Definition handleStartCreating (st : State) : Task unit :=
  set (setIsCreating true) ;;
  set (setNewAgent (NewAgent.mk "" (selectedType st) ∅)).

End Home.

(** ** What the specification says, in its own words *)

Module Spec.

(** [marked tool result]: [result] is [tool] with [is_sample] set to
    true exactly when the server flagged [tool] as a sample or its name
    is [multiply] or [add], to false otherwise; every other field is
    the one of [tool]. *)
Definition marked (tool result : Tool.t) : Prop :=
  Tool.name result = Tool.name tool
  /\ Tool.description result = Tool.description tool
  /\ Tool.created_by result = Tool.created_by tool
  /\ Tool.created_at result = Tool.created_at tool
  /\ Tool.code result = Tool.code tool
  /\ exists b : bool,
       Tool.is_sample result = Some b
       /\ (b = true <->
           Tool.is_sample tool = Some true
           \/ Tool.name tool = "multiply"
           \/ Tool.name tool = "add").

(** [name] or [type] is missing or empty. *)
Definition lacks_name_or_type (agent : PartialAgent.t) : Prop :=
  PartialAgent.name agent = None \/ PartialAgent.name agent = Some ""
  \/ PartialAgent.type agent = None \/ PartialAgent.type agent = Some "".

(** ["User: <content>"] or ["Assistant: <content>"], by the role. *)
Definition labelled (msg : Message.t) : string :=
  match Message.role msg with
  | user => "User: " +:+ Message.content msg
  | assistant => "Assistant: " +:+ Message.content msg
  end.

(** The query built on the five messages [m1] to [m5] and the new
    message [text]. *)
Definition with_history (m1 m2 m3 m4 m5 : Message.t) (text : string)
    : string :=
  "Chat history:" +:+ Js.LF
  +:+ labelled m1 +:+ Js.LF
  +:+ labelled m2 +:+ Js.LF
  +:+ labelled m3 +:+ Js.LF
  +:+ labelled m4 +:+ Js.LF
  +:+ labelled m5
  +:+ Js.LF +:+ Js.LF +:+ "New message:" +:+ Js.LF +:+ text.

End Spec.

(** ** Sample data *)

Module Sample.

Definition clock (n : nat) : string :=
  "2025-03-01T10:00:0" +:+ pretty n +:+ ".000Z".

Definition multiply : Tool.t :=
  Tool.mk "multiply" "Multiply two numbers" "system" "2025-01-01" None None.

Definition weather : Tool.t :=
  Tool.mk "weather" "Look up the weather" "ann" "2025-02-01"
    (Some "def weather(city): ...") (Some false).

Definition flagged : Tool.t :=
  Tool.mk "divide" "Divide two numbers" "system" "2025-01-01" None (Some true).

Definition add_flagged : Tool.t :=
  Tool.mk "add" "Add two numbers" "system" "2025-01-01" None (Some true).

Definition served_agent : Agent.t :=
  Agent.mk 7 "Helper" "CONVERSATIONAL" active None.

Definition served_body : InteractionBody.t :=
  InteractionBody.mk "Hello!" None (Some "echo from the server")
    (Some "1999-12-31T23:59:59.000Z").

(** A server that answers every request. *)
Definition env_up : Env.t :=
  Env.mk clock
    (fun _ _ => HttpOk [multiply; weather; flagged])
    (fun _ _ => HttpOk add_flagged)
    (fun _ _ => HttpOk served_agent)
    (fun _ _ => HttpOk served_body).

(** A server that refuses every request. *)
Definition env_down : Env.t :=
  Env.mk clock
    (fun _ _ => HttpNotOk (Some "Service unavailable"))
    (fun _ _ => HttpNotOk None)
    (fun _ _ => HttpFail "Failed to fetch")
    (fun _ _ => HttpNotOk (Some "Agent not found")).

Definition world0 : World.t := World.mk [] 0.

Definition helper : Agent.t := Agent.mk 7 "Helper" "conversational" active None.

Definition coder : Agent.t := Agent.mk 8 "Coder" "coding" active None.

Definition msg (r : Role) (text : string) : Message.t :=
  Message.mk r text "2025-03-01T09:00:00.000Z" None None None.

Definition six_messages : list Message.t :=
  [msg user "one"; msg assistant "two"; msg user "three";
   msg assistant "four"; msg user "five"; msg assistant "six"].

(** [helper] is selected, six messages were exchanged and a seventh is
    typed. *)
Definition chatting : State :=
  mkState [helper; coder] (Some helper) conversational false false None
    (NewAgent.mk "" conversational ∅) [] false
    "seven" six_messages "python" generate
    false true (Some "notes.pdf") None.

(** The same with nothing typed but white space. *)
Definition chatting_blank : State := setMessage "   " chatting.

(** A tool-calling draft with no tool selected. *)
Definition drafting_tools : State :=
  mkState [helper] (Some helper) tool_calling true false None
    (NewAgent.mk "Calc" tool_calling ∅) [] false
    "" [] "python" generate
    false false None None.

Definition partial_named : PartialAgent.t :=
  PartialAgent.mk None (Some "Helper") (Some "conversational") None None.

Definition partial_unnamed : PartialAgent.t :=
  PartialAgent.mk None (Some "") (Some "conversational") None None.

(** The page is mounted, the user opens the creation form, types a
    name and touches nothing else. *)
Definition untouched_draft (w : World.t) : State * World.t :=
  let '(st0, w0) := run Home.selectedTypeEffect Home.initialState w in
  let '(st1, w1) := run Home.handleStartCreating st0 w0 in
  run (AgentCreationForm.handleNameChange "Helper") st1 w1.

(** The same, but the user also picks [rag] and then [conversational]
    again in the type selector. *)
Definition reselected_draft (w : World.t) : State * World.t :=
  let '(st2, w2) := untouched_draft w in
  let '(st3, w3) := run (AgentCreationForm.handleTypeChange rag) st2 w2 in
  run (AgentCreationForm.handleTypeChange conversational) st3 w3.

End Sample.

(** * The rest of the client, of the page and of the components *)

(** ** Responses whose body is read on demand

    [deleteTool] reads the body only when the response is not ok, and
    [deleteAgent] reads it before it looks at [response.ok]; telling them
    apart takes a response whose body may fail to parse while the
    response itself is there. *)

Module ParsedBody.
(** A body of unknown shape: its [detail] property, if it has one, and
    the value as a whole. *)
Record t : Type := mk {
  detail : option string;
  value : Json
}.
End ParsedBody.

(** - [RawFail e]: [fetch] rejects with [e];
    - [RawResponse ok json]: [fetch] resolves to a response with that
      [ok], whose [json()] settles as [json]. *)
Inductive RawResult : Type :=
| RawFail (e : string)
| RawResponse (ok : bool) (json : Outcome ParsedBody.t).

Module File.
(** A [File], by the one property the client reads. *)
Record t : Type := mk { name : string }.
End File.

Module Backend.
(** The environment of the claims, with the endpoints the other client
    functions talk to. *)
Record t : Type := mk {
  env : Env.t;
  serve_agents : list Request.t -> Request.t -> HttpResult (list Agent.t);
  serve_upload : list Request.t -> Request.t -> HttpResult Json;
  serve_delete : list Request.t -> Request.t -> RawResult
}.
End Backend.

(** [fetch(url, init)] alone: the request is recorded; the response comes
    with what reading its body would give. *)
Definition fetch_raw (serve : list Request.t -> Request.t -> RawResult)
    (req : Request.t) : Api (bool * Outcome ParsedBody.t) :=
  fun w =>
    let w' := World.mk (World.sent w ++ [req]) (World.ticks w) in
    match serve (World.sent w) req with
    | RawFail e => (Rejected e, w')
    | RawResponse ok json => (Resolved (ok, json), w')
    end.

(** [await response.json()] *)
Definition response_json (json : Outcome ParsedBody.t) : Api ParsedBody.t :=
  fun w => (json, w).

Module api_rest.

Definition listAgents (b : Backend.t) : Api (list Agent.t) :=
  await response <- fetch (Backend.serve_agents b)
    (Request.mk GET (API_BASE_URL +:+ "/agents/") [] None);
  expect_ok "Failed to list agents" response (fun data =>
    ret (map (fun agent =>
                Agent.set_type (Js.toLowerCase (Agent.type agent)) agent)
           data)).

(** The form holds the one entry [file]; a file entry is recorded by the
    name of its file. *)
Definition uploadDocument_request (agentId : Z) (file : File.t) : Request.t :=
  Request.mk POST
    (API_BASE_URL +:+ "/agents/" +:+ pretty agentId +:+ "/upload") []
    (Some (FormData [("file", File.name file)])).

Definition uploadDocument (b : Backend.t) (agentId : Z) (file : File.t)
    : Api Json :=
  await response <- fetch (Backend.serve_upload b)
    (uploadDocument_request agentId file);
  expect_ok "Failed to upload document" response (fun data => ret data).

Definition deleteAgent_request (agentId : Z) : Request.t :=
  Request.mk DELETE (API_BASE_URL +:+ "/agents/" +:+ pretty agentId) [] None.

Definition deleteAgent (b : Backend.t) (agentId : Z) : Api ParsedBody.t :=
  await response <- fetch_raw (Backend.serve_delete b)
    (deleteAgent_request agentId);
  await data <- response_json (snd response);
  if negb (fst response)
  then throw (Js.or_else (ParsedBody.detail data) "Failed to delete agent")
  else ret data.

Definition deleteTool_request (name : string) : Request.t :=
  Request.mk DELETE (API_BASE_URL +:+ "/tools/" +:+ name) [] None.

Definition deleteTool (b : Backend.t) (name : string) : Api unit :=
  await response <- fetch_raw (Backend.serve_delete b)
    (deleteTool_request name);
  if negb (fst response)
  then
    await data <- response_json (snd response);
    throw (Js.or_else (ParsedBody.detail data) "Failed to delete tool")
  else ret tt.

End api_rest.

(** ** [Home]: the handlers the claims leave out *)

Module HomeRest.

Definition loadAgents (b : Backend.t) (st : State) : Task unit :=
  try_catch_finally
    (set (setIsLoading true) ;;
     let! fetchedAgents := call (api_rest.listAgents b) in
     set (setAgents fetchedAgents))
    (fun err => set (setError (Some "Failed to load agents")))
    (set (setIsLoading false)).

Definition summary_prompt : string :=
  "Please provide a brief summary of this document.".

(** [selectedAgent!.id]: reading [id] of [null] throws a [TypeError]. *)
Definition selectedAgent_id (st : State) : Api Z :=
  match selectedAgent st with
  | Some agent => ret (Agent.id agent)
  | None => throw "Cannot read properties of null (reading 'id')"
  end.

Definition handleFileUpload (b : Backend.t) (file : File.t) (st : State)
    : Task unit :=
  set (setIsProcessingDocument true) ;;
  try_catch_finally
    (let! id := call (selectedAgent_id st) in
     let! uploaded := call (api_rest.uploadDocument b id file) in
     let! id' := call (selectedAgent_id st) in
     let! response :=
       call (api.queryAgent (Backend.env b) id' summary_prompt None) in
     set (setHasDocument true) ;;
     set (setCurrentDocument (Some (File.name file))) ;;
     set (setMessages
            [Message.mk assistant
               (AgentInteractionResponse.response response)
               (AgentInteractionResponse.created_at response)
               None None None]))
    (fun err => set (setError (Some "Failed to process document")))
    (set (setIsProcessingDocument false)).

(** [onCancel] of the creation form. *)
Definition onCancel (st : State) : Task unit :=
  set (setIsCreating false) ;;
  set (setNewAgent (NewAgent.mk "" (selectedType st) ∅)) ;;
  set (setSelectedTools []) ;;
  set (setShowToolManager false).

(** [onTypeSelect] is [setSelectedType]. *)
Definition onTypeSelect (type : AgentType) (st : State) : Task unit :=
  set (setSelectedType type).

(** A click on a type of the sidebar: the setter, then the render, then
    the effect on [selectedType] when the type is not the one of the
    render before (a type is a string, compared by value). *)
Definition selectType (type : AgentType) (st : State) (w : World.t)
    : State * World.t :=
  let '(st1, w1) := run (onTypeSelect type) st w in
  if AgentType_eqb type (selectedType st) then (st1, w1)
  else run Home.selectedTypeEffect st1 w1.

(** What the content area shows. *)
Inductive Screen : Type :=
| ShowCreationForm
| ShowDocumentUpload
| ShowChatInterface
| ShowWelcomeScreen.

Definition content (st : State) : Screen :=
  if isCreating st then ShowCreationForm
  else
    match selectedAgent st with
    | Some agent =>
        if String.eqb (Agent.type agent) "rag" && negb (hasDocument st)
        then ShowDocumentUpload
        else ShowChatInterface
    | None => ShowWelcomeScreen
    end.

(** The title of the header. *)
Definition header (st : State) : string :=
  if isCreating st then "Create New Agent"
  else
    match selectedAgent st with
    | Some agent => Agent.name agent
    | None => "Select or Create an Agent"
    end.

End HomeRest.

(** ** [AgentCreationForm]: tools and the submit button *)

Module FormTools.

Definition removeSelectedTool (toolName : string) (st : State) : Task unit :=
  set (setSelectedTools
         (List.filter
            (fun t => negb (String.eqb (SelectedTool.name t) toolName))
            (selectedTools st))).

Definition selected_of (tool : Tool.t) : SelectedTool.t :=
  SelectedTool.mk (Tool.name tool) (Tool.description tool).

(** [onToolSelect] as the form hands it to [ToolManager]. *)
Definition onToolSelect (tool : Tool.t) (st : State) : Task unit :=
  match List.find
          (fun t => String.eqb (SelectedTool.name t) (Tool.name tool))
          (selectedTools st) with
  | Some _ => tret tt
  | None => set (setSelectedTools (selectedTools st ++ [selected_of tool]))
  end.

(** [onToolCreate] as the form hands it to [ToolManager]. *)
Definition onToolCreate (tool : Tool.t) (st : State) : Task unit :=
  set (setSelectedTools (selectedTools st ++ [selected_of tool])).

(** [disabled] of the submit button. *)
Definition submitDisabled (st : State) : bool :=
  isLoading st
  || negb (Js.truthy (NewAgent.name (newAgent st)))
  || (AgentType_eqb (NewAgent.type (newAgent st)) tool_calling
      && (List.length (selectedTools st) =? 0)).

(** The form shows the tool manager in place of its fields. *)
Definition showsToolManager (st : State) : bool :=
  showToolManager st
  && AgentType_eqb (NewAgent.type (newAgent st)) tool_calling.

End FormTools.

(** ** [ToolManager]: the two lists it shows *)

Module ToolManager.

Definition is_sample_truthy (tool : Tool.t) : bool :=
  match Tool.is_sample tool with
  | Some true => true
  | Some false | None => false
  end.

Definition getSampleTools (tools : list Tool.t) : list Tool.t :=
  List.filter is_sample_truthy tools.

Definition getCustomTools (tools : list Tool.t) : list Tool.t :=
  List.filter (fun tool => negb (is_sample_truthy tool)) tools.

End ToolManager.

(** ** Sessions of the creation form

    The events a user can fire while a draft is edited, each guarded by
    the condition under which its control is rendered and enabled. *)

Module Session.

Inductive Event : Type :=
| CreateClick
| TypeSelect (type : AgentType)
| NameInput (value : string)
| TypeChange (type : AgentType)
| PromptInput (value : string)
| ManageTools
| RemoveTool (toolName : string)
| CancelClick
| BackToCreation
| ToolSelect (tool : Tool.t)
| ToolCreate (tool : Tool.t).

(** The form shows its fields. *)
Definition fieldsShown (st : State) : bool :=
  isCreating st && negb (FormTools.showsToolManager st).

(** The form shows the tool manager. *)
Definition managerShown (st : State) : bool :=
  isCreating st && FormTools.showsToolManager st.

Definition enabled (e : Event) (st : State) : bool :=
  match e with
  | CreateClick => negb (isLoading st)
  | TypeSelect _ => true
  | NameInput _ | TypeChange _ | CancelClick =>
      fieldsShown st && negb (isLoading st)
  | PromptInput _ =>
      fieldsShown st && negb (isLoading st)
      && AgentType_eqb (NewAgent.type (newAgent st)) conversational
  | ManageTools | RemoveTool _ =>
      fieldsShown st
      && AgentType_eqb (NewAgent.type (newAgent st)) tool_calling
  | BackToCreation | ToolSelect _ | ToolCreate _ => managerShown st
  end.

(** None of these handlers awaits anything: the world they run in does
    not matter. *)
Definition nowhere : World.t := World.mk [] 0.

Definition handle (e : Event) (st : State) : State :=
  match e with
  | CreateClick => fst (run Home.handleStartCreating st nowhere)
  | TypeSelect type => fst (HomeRest.selectType type st nowhere)
  | NameInput value =>
      fst (run (AgentCreationForm.handleNameChange value) st nowhere)
  | TypeChange type =>
      fst (run (AgentCreationForm.handleTypeChange type) st nowhere)
  | PromptInput value =>
      fst (run (AgentCreationForm.handlePromptChange value) st nowhere)
  | ManageTools => fst (run (fun _ => set (setShowToolManager true)) st nowhere)
  | RemoveTool toolName =>
      fst (run (FormTools.removeSelectedTool toolName) st nowhere)
  | CancelClick => fst (run HomeRest.onCancel st nowhere)
  | BackToCreation =>
      fst (run (fun _ => set (setShowToolManager false)) st nowhere)
  | ToolSelect tool => fst (run (FormTools.onToolSelect tool) st nowhere)
  | ToolCreate tool => fst (run (FormTools.onToolCreate tool) st nowhere)
  end.

Definition step (st : State) (e : Event) : State :=
  if enabled e st then handle e st else st.

Definition replay (events : list Event) (st : State) : State :=
  fold_left step events st.

(** The page once mounted: the effect on [selectedType] has run. *)
Definition mounted : State :=
  fst (run Home.selectedTypeEffect Home.initialState nowhere).

(** What every session keeps of the draft: a draft that is not
    conversational has the empty configuration, and a conversational one
    has the empty configuration or a prompt template and nothing else. *)
Definition draft_ok (st : State) : Prop :=
  NewAgent.configuration (newAgent st) = ∅
  \/ (NewAgent.type (newAgent st) = conversational
      /\ exists template : string,
           NewAgent.configuration (newAgent st)
           = {[ "prompt_template" := JStr template ]}).

End Session.

(** ** Shorthands for the statements *)

Module Shape.

(** [result] is [agent] with its [type] in lower case, a string that
    lower-casing leaves as it is. *)
Definition lowered (agent result : Agent.t) : Prop :=
  Agent.id result = Agent.id agent
  /\ Agent.name result = Agent.name agent
  /\ Agent.status result = Agent.status agent
  /\ Agent.configuration result = Agent.configuration agent
  /\ Agent.type result = Js.toLowerCase (Agent.type agent)
  /\ Js.toLowerCase (Agent.type result) = Agent.type result.

(** The reason a client function rejects with when the response is not
    ok: the [detail] of the body when it is a non-empty string, the
    message of the function otherwise. *)
Definition reason (detail : option string) (fallback : string) : string :=
  match detail with
  | Some (String c d) => String c d
  | Some EmptyString | None => fallback
  end.

(** The world after one more request. *)
Definition after (w : World.t) (req : Request.t) : World.t :=
  World.mk (World.sent w ++ [req]) (World.ticks w).

End Shape.

(** ** More sample data *)

Module Sample2.

Definition librarian : Agent.t := Agent.mk 9 "Librarian" "rag" active None.

Definition served_agents : list Agent.t :=
  [Agent.mk 7 "Helper" "Conversational" active None;
   Agent.mk 9 "Librarian" "RAG" inactive None].

Definition unparseable : Outcome ParsedBody.t :=
  Rejected "Unexpected end of JSON input".

(** Every endpoint answers; a deletion is answered with an empty body. *)
Definition backend_up : Backend.t :=
  Backend.mk Sample.env_up
    (fun _ _ => HttpOk served_agents)
    (fun _ _ => HttpOk (JStr "stored"))
    (fun _ _ => RawResponse true unparseable).

(** Every endpoint refuses. *)
Definition backend_down : Backend.t :=
  Backend.mk Sample.env_down
    (fun _ _ => HttpNotOk (Some ""))
    (fun _ _ => HttpNotOk (Some "File too large"))
    (fun _ _ => RawResponse false unparseable).

(** The upload goes through and the summary is refused. *)
Definition backend_no_summary : Backend.t :=
  Backend.mk Sample.env_down
    (fun _ _ => HttpOk served_agents)
    (fun _ _ => HttpOk (JStr "stored"))
    (fun _ _ => RawResponse true unparseable).

Definition notes : File.t := File.mk "notes.pdf".

(** [librarian] is selected and has no document yet; an earlier error is
    still shown. *)
Definition awaiting_document : State :=
  mkState [Sample.helper; librarian] (Some librarian) conversational
    false false (Some "Failed to load agents")
    (NewAgent.mk "" conversational ∅) [] false
    "" [] "python" generate
    false false None None.

(** A conversational draft named [Helper], ready to be submitted. *)
Definition drafting : State :=
  mkState [Sample.helper] None conversational true false None
    (NewAgent.mk "Helper" conversational ∅) [] false
    "" [Sample.msg user "old"] "python" generate
    false false None None.

Definition calculator : SelectedTool.t :=
  SelectedTool.mk "multiply" "Multiply two numbers".

(** A tool-calling draft with one tool and a stale prompt template. *)
Definition drafting_calculator : State :=
  mkState [Sample.helper] None tool_calling true false None
    (NewAgent.mk "Calc" tool_calling
       (<["prompt_template" := JStr "stale"]> {[ "temperature" := JNum 1 ]}))
    [calculator] false
    "" [] "python" generate
    false false None None.

(** The same draft with its tool manager open. *)
Definition managing_tools : State := setShowToolManager true drafting_calculator.

Definition session : list Session.Event :=
  [Session.CreateClick; Session.NameInput "Helper";
   Session.PromptInput "Be brief: {input}"; Session.TypeChange tool_calling;
   Session.ToolSelect Sample.multiply; Session.BackToCreation;
   Session.TypeSelect rag; Session.TypeChange conversational;
   Session.PromptInput "Be kind: {input}"].

End Sample2.

(** * Properties *)

(** ** JavaScript primitives *)

Module JsFacts.

Lemma trimStart_blank (s : string) :
  Js.blank s = true -> Js.trimStart s = "".
Proof.
  induction s as [|c r IH]; simpl; [reflexivity|].
  destruct (Js.isWhiteSpace c); simpl; [exact IH | discriminate].
Qed.

Lemma trimEnd_empty_blank (s : string) :
  Js.trimEnd s = "" -> Js.blank s = true.
Proof.
  induction s as [|c r IH]; simpl; [reflexivity|].
  destruct (Js.trimEnd r) eqn:E; [|discriminate].
  destruct (Js.isWhiteSpace c); [intros _; simpl; auto | discriminate].
Qed.

Lemma trimStart_suffix_blank (s : string) :
  Js.blank (Js.trimStart s) = Js.blank s.
Proof.
  induction s as [|c r IH]; simpl; [reflexivity|].
  destruct (Js.isWhiteSpace c) eqn:E; simpl; [exact IH | now rewrite E].
Qed.

Lemma trimEnd_blank (s : string) :
  Js.blank s = true -> Js.trimEnd s = "".
Proof.
  induction s as [|c r IH]; simpl; [reflexivity|].
  destruct (Js.isWhiteSpace c); simpl; [|discriminate].
  intros H. now rewrite (IH H).
Qed.

(** [!s.trim()] holds exactly for the strings made of white space. *)
Lemma trim_truthy (s : string) :
  Js.truthy (Js.trim s) = negb (Js.blank s).
Proof.
  unfold Js.trim.
  destruct (Js.blank s) eqn:B; simpl.
  - now rewrite (trimStart_blank s B).
  - destruct (Js.trimEnd (Js.trimStart s)) eqn:E; [|reflexivity].
    apply trimEnd_empty_blank in E.
    rewrite trimStart_suffix_blank in E. congruence.
Qed.

Lemma append_assoc (a b c : string) : (a +:+ b) +:+ c = a +:+ b +:+ c.
Proof.
  induction a as [|x a IH]; [reflexivity|].
  change (String x ((a +:+ b) +:+ c) = String x (a +:+ b +:+ c)).
  now rewrite IH.
Qed.

Lemma join_cons_truthy (sep x : string) (l : list string) :
  Js.truthy x = true -> Js.truthy (Js.join sep (x :: l)) = true.
Proof.
  destruct x as [|c x]; [discriminate|].
  intros _. destruct l; reflexivity.
Qed.

Lemma slice_last_app {A : Type} (n : nat) (l1 l2 : list A) :
  List.length l2 = n -> Js.slice_last n (l1 ++ l2) = l2.
Proof.
  intros <-. unfold Js.slice_last.
  rewrite length_app.
  replace (List.length l1 + List.length l2 - List.length l2)
    with (List.length l1) by lia.
  apply drop_app_length.
Qed.

Lemma last_five_exists {A : Type} (l : list A) :
  5 <= List.length l ->
  exists (prefix : list A) (m1 m2 m3 m4 m5 : A),
    l = prefix ++ [m1; m2; m3; m4; m5].
Proof.
  intros Hlen.
  pose proof (take_drop (List.length l - 5) l) as Hsplit.
  assert (List.length (drop (List.length l - 5) l) = 5) as Hdrop
    by (rewrite length_drop; lia).
  destruct (drop (List.length l - 5) l)
    as [|m1 [|m2 [|m3 [|m4 [|m5 [|m6 rest]]]]]]; try discriminate Hdrop.
  exists (take (List.length l - 5) l), m1, m2, m3, m4, m5.
  symmetry. exact Hsplit.
Qed.

Lemma includes_spec (l : list string) (x : string) :
  Js.includes l x = true <-> In x l.
Proof.
  unfold Js.includes. rewrite existsb_exists. split.
  - intros (y & Hin & Heq). apply String.eqb_eq in Heq. now subst.
  - intros Hin. exists x. split; [exact Hin | apply String.eqb_refl].
Qed.

Example toLowerCase_type : Js.toLowerCase "Tool_CALLING" = "tool_calling".
Proof. reflexivity. Qed.

Example trim_sample :
  Js.trim (" " +:+ Js.LF +:+ "hi there " +:+ Js.LF) = "hi there".
Proof. reflexivity. Qed.

Example slice_last_short : Js.slice_last 5 [1; 2; 3] = [1; 2; 3].
Proof. reflexivity. Qed.

Example slice_last_long : Js.slice_last 5 [1; 2; 3; 4; 5; 6; 7] = [3; 4; 5; 6; 7].
Proof. reflexivity. Qed.

End JsFacts.

(** ** The API client *)

Module ApiSpec.

Lemma sample_flag_spec (tool : Tool.t) :
  api.sample_flag tool = true <->
  Tool.is_sample tool = Some true
  \/ Tool.name tool = "multiply" \/ Tool.name tool = "add".
Proof.
  unfold api.sample_flag.
  destruct (Tool.is_sample tool) as [[|]|].
  - split; auto.
  - rewrite JsFacts.includes_spec. simpl. split.
    + intros [H|[H|[]]]; auto.
    + intros [H|[H|H]]; [discriminate | auto | auto].
  - rewrite JsFacts.includes_spec. simpl. split.
    + intros [H|[H|[]]]; auto.
    + intros [H|[H|H]]; [discriminate | auto | auto].
Qed.

Lemma set_is_sample_marked (tool : Tool.t) :
  Spec.marked tool (Tool.set_is_sample (api.sample_flag tool) tool).
Proof.
  unfold Spec.marked. simpl. repeat split; try reflexivity.
  exists (api.sample_flag tool). split; [reflexivity|].
  apply sample_flag_spec.
Qed.

(** C4. When the server answers the tool list [tools], [listTools]
    resolves to a list that pairs off with [tools], each element being
    its tool with [is_sample] true exactly when the server flag is true
    or the name is [multiply] or [add], and every other field as the
    server sent it; when the server answers [getTool(name)] with
    [data], [getTool] resolves to [data] marked the same way. *)
Theorem listTools_getTool_mark_samples (env : Env.t) (w : World.t) :
  (forall tools : list Tool.t,
     Env.serve_tools env (World.sent w)
       (Request.mk GET (API_BASE_URL +:+ "/tools") [] None) = HttpOk tools ->
     exists result : list Tool.t,
       fst (api.listTools env w) = Resolved result
       /\ Forall2 Spec.marked tools result)
  /\ (forall (name : string) (data : Tool.t),
        Env.serve_tool env (World.sent w)
          (Request.mk GET (API_BASE_URL +:+ "/tools/" +:+ name) [] None)
        = HttpOk data ->
        exists result : Tool.t,
          fst (api.getTool env name w) = Resolved result
          /\ Spec.marked data result).
Proof.
  split.
  - intros tools Hserve.
    exists (map (fun tool => Tool.set_is_sample (api.sample_flag tool) tool)
              tools).
    split.
    + unfold api.listTools, bind, fetch. simpl. rewrite Hserve. reflexivity.
    + clear Hserve. induction tools as [|tool tools IH]; constructor.
      * apply set_is_sample_marked.
      * exact IH.
  - intros name data Hserve.
    exists (Tool.set_is_sample (api.sample_flag data) data).
    split.
    + unfold api.getTool, bind, fetch. simpl. rewrite Hserve. reflexivity.
    + apply set_is_sample_marked.
Qed.

Lemma listTools_getTool_mark_samples_witness :
  (exists result : list Tool.t,
     fst (api.listTools Sample.env_up Sample.world0) = Resolved result
     /\ Forall2 Spec.marked
          [Sample.multiply; Sample.weather; Sample.flagged] result)
  /\ (exists result : Tool.t,
        fst (api.getTool Sample.env_up "add" Sample.world0) = Resolved result
        /\ Spec.marked Sample.add_flagged result).
Proof.
  split.
  - apply (proj1 (listTools_getTool_mark_samples Sample.env_up Sample.world0)).
    reflexivity.
  - apply (proj2 (listTools_getTool_mark_samples Sample.env_up Sample.world0)
             "add").
    reflexivity.
Defined.

Example listTools_sample :
  fst (api.listTools Sample.env_up Sample.world0)
  = Resolved [Tool.set_is_sample true Sample.multiply;
              Tool.set_is_sample false Sample.weather;
              Tool.set_is_sample true Sample.flagged].
Proof. reflexivity. Qed.

(** C5. Whatever tool the server answers a creation with, [createTool]
    and [createToolFromCode] resolve to that tool with [is_sample] set
    to false; and whenever either resolves, the [is_sample] of the tool
    it resolves to is false. *)
Theorem createTool_never_sample (env : Env.t) (w : World.t)
    (request : CreateToolRequest.t)
    (code_request : CreateToolFromCodeRequest.t) :
  (forall data : Tool.t,
     Env.serve_tool env (World.sent w)
       (Request.mk POST (API_BASE_URL +:+ "/tools") json_headers
          (Some (JsonCreateTool request))) = HttpOk data ->
     fst (api.createTool env request w)
     = Resolved (Tool.set_is_sample false data))
  /\ (forall data : Tool.t,
        Env.serve_tool env (World.sent w)
          (Request.mk POST (API_BASE_URL +:+ "/tools/code") json_headers
             (Some (JsonCreateToolFromCode code_request))) = HttpOk data ->
        fst (api.createToolFromCode env code_request w)
        = Resolved (Tool.set_is_sample false data))
  /\ (forall result : Tool.t,
        fst (api.createTool env request w) = Resolved result ->
        Tool.is_sample result = Some false)
  /\ (forall result : Tool.t,
        fst (api.createToolFromCode env code_request w) = Resolved result ->
        Tool.is_sample result = Some false).
Proof.
  unfold api.createTool, api.createToolFromCode, bind, fetch. simpl.
  repeat split.
  - intros data ->. reflexivity.
  - intros data ->. reflexivity.
  - intros result.
    destruct (Env.serve_tool env _ _) as [data|detail|e]; simpl;
      intros H; inversion H; reflexivity.
  - intros result.
    destruct (Env.serve_tool env _ _) as [data|detail|e]; simpl;
      intros H; inversion H; reflexivity.
Qed.

Lemma createTool_never_sample_witness :
  fst (api.createTool Sample.env_up
         (CreateToolRequest.mk "Add two numbers" None "ann") Sample.world0)
  = Resolved (Tool.set_is_sample false Sample.add_flagged)
  /\ fst (api.createToolFromCode Sample.env_up
            (CreateToolFromCodeRequest.mk "add" "def add(a, b): ..." "ann")
            Sample.world0)
     = Resolved (Tool.set_is_sample false Sample.add_flagged).
Proof.
  pose proof (createTool_never_sample Sample.env_up Sample.world0
                (CreateToolRequest.mk "Add two numbers" None "ann")
                (CreateToolFromCodeRequest.mk "add" "def add(a, b): ..." "ann"))
    as (H1 & H2 & _).
  split; [apply H1 | apply H2]; reflexivity.
Defined.

Lemma lacks_name_or_type_spec (agent : PartialAgent.t) :
  negb (Js.truthy_opt (PartialAgent.name agent))
  || negb (Js.truthy_opt (PartialAgent.type agent)) = true
  <-> Spec.lacks_name_or_type agent.
Proof.
  unfold Spec.lacks_name_or_type.
  destruct (PartialAgent.name agent) as [[|c n]|];
    destruct (PartialAgent.type agent) as [[|d t]|]; simpl;
    intuition (discriminate || auto).
Qed.

(** C6. [createAgent] rejects with [Agent name and type are required],
    sending nothing, whenever [name] or [type] is missing or empty.
    Otherwise it sends exactly one request, a JSON POST to [/agents/]
    whose body has the supplied [name], [type] and [id], the supplied
    [status] or [active] when there is none, and the supplied
    [configuration] or the empty mapping when there is none; and when
    the server answers that request with the agent [data], it resolves
    to [data] with its [type] in lower case. *)
Theorem createAgent_contract (env : Env.t) (agent : PartialAgent.t)
    (w : World.t) :
  (Spec.lacks_name_or_type agent ->
   api.createAgent env agent w
   = (Rejected "Agent name and type are required", w))
  /\ (~ Spec.lacks_name_or_type agent ->
      exists body : PartialAgent.t,
        let request :=
          Request.mk POST (API_BASE_URL +:+ "/agents/")
            [("Content-Type", "application/json")] (Some (JsonAgent body)) in
        World.sent (snd (api.createAgent env agent w))
        = World.sent w ++ [request]
        /\ PartialAgent.id body = PartialAgent.id agent
        /\ PartialAgent.name body = PartialAgent.name agent
        /\ PartialAgent.type body = PartialAgent.type agent
        /\ PartialAgent.status body
           = Some (match PartialAgent.status agent with
                   | Some status => status
                   | None => active
                   end)
        /\ PartialAgent.configuration body
           = Some (match PartialAgent.configuration agent with
                   | Some configuration => configuration
                   | None => ∅
                   end)
        /\ forall data : Agent.t,
             Env.serve_agent env (World.sent w) request = HttpOk data ->
             fst (api.createAgent env agent w)
             = Resolved
                 (Agent.mk (Agent.id data) (Agent.name data)
                    (Js.toLowerCase (Agent.type data))
                    (Agent.status data) (Agent.configuration data))).
Proof.
  split.
  - intros H. apply lacks_name_or_type_spec in H.
    unfold api.createAgent. rewrite H. reflexivity.
  - intros H.
    assert (negb (Js.truthy_opt (PartialAgent.name agent))
            || negb (Js.truthy_opt (PartialAgent.type agent)) = false) as E.
    { destruct (_ || _) eqn:E; [|reflexivity].
      apply lacks_name_or_type_spec in E. contradiction. }
    exists (api.agentData agent).
    unfold api.createAgent. rewrite E.
    unfold bind, fetch, api.createAgent_request, json_headers. simpl.
    split.
    { destruct (Env.serve_agent env _ _) as [data|detail|e]; reflexivity. }
    do 3 (split; [reflexivity|]).
    split; [destruct (PartialAgent.status agent); reflexivity|].
    split; [destruct (PartialAgent.configuration agent); reflexivity|].
    intros data ->. reflexivity.
Qed.

Lemma createAgent_contract_witness :
  api.createAgent Sample.env_up Sample.partial_unnamed Sample.world0
  = (Rejected "Agent name and type are required", Sample.world0)
  /\ exists body : PartialAgent.t,
       World.sent
         (snd (api.createAgent Sample.env_up Sample.partial_named
                 Sample.world0))
       = [Request.mk POST (API_BASE_URL +:+ "/agents/")
            [("Content-Type", "application/json")] (Some (JsonAgent body))]
       /\ PartialAgent.status body = Some active
       /\ PartialAgent.configuration body = Some ∅
       /\ fst (api.createAgent Sample.env_up Sample.partial_named
                 Sample.world0)
          = Resolved (Agent.mk 7 "Helper" "conversational" active None).
Proof.
  split.
  - apply (proj1 (createAgent_contract Sample.env_up Sample.partial_unnamed
                    Sample.world0)).
    right. left. reflexivity.
  - destruct (proj2 (createAgent_contract Sample.env_up Sample.partial_named
                       Sample.world0))
      as (body & Hsent & _ & _ & _ & Hstatus & Hconf & Hok).
    + unfold Spec.lacks_name_or_type. simpl.
      intros [H|[H|[H|H]]]; discriminate.
    + exists body.
      split; [exact Hsent|]. split; [exact Hstatus|]. split; [exact Hconf|].
      apply (Hok Sample.served_agent). reflexivity.
Defined.

(** C8. When the server answers the query with [data], [queryAgent]
    resolves to the record of [data.response], the query string it was
    called with, the reading of the client clock taken on receipt and
    [data.metadata]: nothing of it comes from the [message] or
    [created_at] of the body.  Its form starts with the field [query].
    [interactWithAgent] does the same with its message, and its form is
    the single field [message]. *)
Theorem queryAgent_interactWithAgent_normalise (env : Env.t) (w : World.t)
    (agentId : Z) (text : string)
    (context : option (list (string * string))) :
  (forall data : InteractionBody.t,
     Env.serve_interaction env (World.sent w)
       (api.queryAgent_request agentId text context) = HttpOk data ->
     api.queryAgent env agentId text context w
     = (Resolved
          (AgentInteractionResponse.mk
             (InteractionBody.response data)
             text
             (Env.toISOString env (World.ticks w))
             (InteractionBody.metadata data)),
        World.mk
          (World.sent w ++ [api.queryAgent_request agentId text context])
          (S (World.ticks w))))
  /\ (exists rest : list (string * string),
        Request.body (api.queryAgent_request agentId text context)
        = Some (FormData (("query", text) :: rest)))
  /\ (forall data : InteractionBody.t,
        Env.serve_interaction env (World.sent w)
          (api.interactWithAgent_request agentId text) = HttpOk data ->
        api.interactWithAgent env agentId text w
        = (Resolved
             (AgentInteractionResponse.mk
                (InteractionBody.response data)
                text
                (Env.toISOString env (World.ticks w))
                (InteractionBody.metadata data)),
           World.mk
             (World.sent w ++ [api.interactWithAgent_request agentId text])
             (S (World.ticks w))))
  /\ Request.body (api.interactWithAgent_request agentId text)
     = Some (FormData [("message", text)]).
Proof.
  repeat split.
  - intros data H.
    unfold api.queryAgent, bind, fetch. simpl. rewrite H. reflexivity.
  - eexists. reflexivity.
  - intros data H.
    unfold api.interactWithAgent, bind, fetch. simpl. rewrite H. reflexivity.
Qed.

Lemma queryAgent_interactWithAgent_normalise_witness :
  fst (api.queryAgent Sample.env_up 7 "What is 2 + 2?" None Sample.world0)
  = Resolved
      (AgentInteractionResponse.mk "Hello!" "What is 2 + 2?"
         (Sample.clock 0) None)
  /\ fst (api.interactWithAgent Sample.env_up 7 "What is 2 + 2?"
            Sample.world0)
     = Resolved
         (AgentInteractionResponse.mk "Hello!" "What is 2 + 2?"
            (Sample.clock 0) None).
Proof.
  pose proof (queryAgent_interactWithAgent_normalise Sample.env_up
                Sample.world0 7 "What is 2 + 2?" None) as (H1 & _ & H2 & _).
  split.
  - rewrite (H1 Sample.served_body); reflexivity.
  - rewrite (H2 Sample.served_body); reflexivity.
Defined.

End ApiSpec.

(** ** The root controller *)

Module HomeSpec.

Lemma queryAgent_sent (env : Env.t) (agentId : Z) (query : string)
    (context : option (list (string * string))) (w : World.t) :
  World.sent (snd (api.queryAgent env agentId query context w))
  = World.sent w ++ [api.queryAgent_request agentId query context].
Proof.
  unfold api.queryAgent, bind, fetch. simpl.
  destruct (Env.serve_interaction env _ _); reflexivity.
Qed.

(** A send that passes the guard, step by step. *)
Lemma handleMessageSend_run (env : Env.t) (st : State) (agent : Agent.t)
    (w : World.t) :
  selectedAgent st = Some agent ->
  Js.blank (message st) = false ->
  run (Home.handleMessageSend env) st w
  = let cur := Home.awaiting env st agent w in
    match api.queryAgent env (Agent.id agent) (Home.messageWithHistory st)
            (Home.queryContext st agent)
            (World.mk (World.sent w) (S (World.ticks w))) with
    | (Resolved response, w') =>
        (setIsLoading false
           (setMessages (messages cur ++ [Home.agentMessage st response]) cur),
         w')
    | (Rejected _, w') =>
        (setIsLoading false (setError (Some "Failed to send message") cur), w')
    end.
Proof.
  intros Hsel Hblank.
  unfold run, Home.handleMessageSend. rewrite Hsel.
  rewrite JsFacts.trim_truthy, Hblank. simpl.
  unfold try_catch_finally, tbind, set, call, Date_toISOString. simpl.
  destruct (api.queryAgent env _ _ _ _) as [[response|reason] w'];
    reflexivity.
Qed.

Lemma formatMessage_labelled (msg : Message.t) :
  Home.formatMessage msg = Spec.labelled msg.
Proof.
  unfold Home.formatMessage, Spec.labelled.
  destruct (Message.role msg); reflexivity.
Qed.

Lemma handleMessageSend_sent (env : Env.t) (st : State) (agent : Agent.t)
    (w : World.t) :
  selectedAgent st = Some agent ->
  Js.blank (message st) = false ->
  World.sent (snd (run (Home.handleMessageSend env) st w))
  = World.sent w
    ++ [api.queryAgent_request (Agent.id agent) (Home.messageWithHistory st)
          (Home.queryContext st agent)].
Proof.
  intros Hsel Hblank.
  rewrite (handleMessageSend_run env st agent w Hsel Hblank). simpl.
  pose proof (queryAgent_sent env (Agent.id agent)
                (Home.messageWithHistory st) (Home.queryContext st agent)
                (World.mk (World.sent w) (S (World.ticks w)))) as Hsent.
  destruct (api.queryAgent env _ _ _ _) as [[response|reason] w'];
    exact Hsent.
Qed.

Lemma messageWithHistory_five (st : State) (prefix : list Message.t)
    (m1 m2 m3 m4 m5 : Message.t) :
  messages st = prefix ++ [m1; m2; m3; m4; m5] ->
  Home.messageWithHistory st = Spec.with_history m1 m2 m3 m4 m5 (message st).
Proof.
  intros Hm.
  unfold Home.messageWithHistory, Home.lastFiveMessages. rewrite Hm.
  rewrite JsFacts.slice_last_app by reflexivity.
  cbn [map].
  rewrite JsFacts.join_cons_truthy
    by (rewrite formatMessage_labelled; unfold Spec.labelled;
        destruct (Message.role m1); reflexivity).
  cbn [Js.join]. rewrite !formatMessage_labelled.
  unfold Spec.with_history. now rewrite !JsFacts.append_assoc.
Qed.

Lemma messageWithHistory_empty (st : State) :
  messages st = [] -> Home.messageWithHistory st = message st.
Proof.
  intros Hm. unfold Home.messageWithHistory, Home.lastFiveMessages.
  rewrite Hm. reflexivity.
Qed.

(** C2. A send that passes the guard issues exactly one request, the
    query of the selected agent.  When the message list of the render
    has at least five entries, it ends with five messages [m1] to [m5]
    and the query string is [Chat history:], a line feed, those five
    messages in that order, each as [User: <content>] or
    [Assistant: <content>] by its role and separated by line feeds, two
    line feeds, [New message:], a line feed and the typed message; this
    holds of whichever five messages the list ends with.  When the
    message list is empty, the query string is the typed message
    alone. *)
Theorem handleMessageSend_history (env : Env.t) (st : State)
    (agent : Agent.t) (w : World.t) :
  selectedAgent st = Some agent ->
  Js.blank (message st) = false ->
  (5 <= List.length (messages st) ->
   exists (prefix : list Message.t) (m1 m2 m3 m4 m5 : Message.t),
     messages st = prefix ++ [m1; m2; m3; m4; m5])
  /\ (forall (prefix : list Message.t) (m1 m2 m3 m4 m5 : Message.t),
        messages st = prefix ++ [m1; m2; m3; m4; m5] ->
        World.sent (snd (run (Home.handleMessageSend env) st w))
        = World.sent w
          ++ [api.queryAgent_request (Agent.id agent)
                (Spec.with_history m1 m2 m3 m4 m5 (message st))
                (Home.queryContext st agent)])
  /\ (messages st = [] ->
      World.sent (snd (run (Home.handleMessageSend env) st w))
      = World.sent w
        ++ [api.queryAgent_request (Agent.id agent) (message st)
              (Home.queryContext st agent)]).
Proof.
  intros Hsel Hblank. split; [apply JsFacts.last_five_exists|]. split.
  - intros prefix m1 m2 m3 m4 m5 Hm.
    rewrite (handleMessageSend_sent env st agent w Hsel Hblank).
    now rewrite (messageWithHistory_five st prefix m1 m2 m3 m4 m5 Hm).
  - intros Hm.
    rewrite (handleMessageSend_sent env st agent w Hsel Hblank).
    now rewrite (messageWithHistory_empty st Hm).
Qed.

Lemma handleMessageSend_history_witness :
  World.sent (snd (run (Home.handleMessageSend Sample.env_up) Sample.chatting
                     Sample.world0))
  = [api.queryAgent_request 7
       ("Chat history:" +:+ Js.LF
        +:+ "Assistant: two" +:+ Js.LF
        +:+ "User: three" +:+ Js.LF
        +:+ "Assistant: four" +:+ Js.LF
        +:+ "User: five" +:+ Js.LF
        +:+ "Assistant: six" +:+ Js.LF +:+ Js.LF
        +:+ "New message:" +:+ Js.LF +:+ "seven")
       None]
  /\ World.sent (snd (run (Home.handleMessageSend Sample.env_up)
                        (setMessages [] Sample.chatting) Sample.world0))
     = [api.queryAgent_request 7 "seven" None].
Proof.
  split.
  - exact (proj1 (proj2 (handleMessageSend_history Sample.env_up
                           Sample.chatting Sample.helper Sample.world0
                           eq_refl eq_refl))
             [Sample.msg user "one"]
             (Sample.msg assistant "two") (Sample.msg user "three")
             (Sample.msg assistant "four") (Sample.msg user "five")
             (Sample.msg assistant "six") eq_refl).
  - exact (proj2 (proj2 (handleMessageSend_history Sample.env_up
                           (setMessages [] Sample.chatting)
                           Sample.helper Sample.world0 eq_refl eq_refl))
             eq_refl).
Defined.

(** C9. When the query of a send rejects, the send ends with the error
    [Failed to send message], the loading flag down, and the message
    list of the render followed by the user message alone: the message
    appended before the call stays, and no assistant message follows
    it. *)
Theorem handleMessageSend_rejected (env : Env.t) (st : State)
    (agent : Agent.t) (w : World.t) (reason : string) :
  selectedAgent st = Some agent ->
  Js.blank (message st) = false ->
  fst (api.queryAgent env (Agent.id agent) (Home.messageWithHistory st)
         (Home.queryContext st agent)
         (World.mk (World.sent w) (S (World.ticks w))))
  = Rejected reason ->
  let st' := fst (run (Home.handleMessageSend env) st w) in
  error st' = Some "Failed to send message"
  /\ isLoading st' = false
  /\ exists userMessage : Message.t,
       messages st' = messages st ++ [userMessage]
       /\ Message.role userMessage = user
       /\ Message.content userMessage = message st
       /\ Message.timestamp userMessage
          = Env.toISOString env (World.ticks w).
Proof.
  intros Hsel Hblank Hrej.
  rewrite (handleMessageSend_run env st agent w Hsel Hblank).
  destruct (api.queryAgent env _ _ _ _) as [[response|reason'] w'];
    simpl in Hrej; [discriminate|].
  simpl. split; [reflexivity|]. split; [reflexivity|].
  exists (Home.userMessage st agent (Env.toISOString env (World.ticks w))).
  repeat split.
Qed.

Lemma handleMessageSend_rejected_witness :
  let st' :=
    fst (run (Home.handleMessageSend Sample.env_down) Sample.chatting
           Sample.world0) in
  error st' = Some "Failed to send message"
  /\ isLoading st' = false
  /\ exists userMessage : Message.t,
       messages st' = Sample.six_messages ++ [userMessage]
       /\ Message.role userMessage = user
       /\ Message.content userMessage = "seven"
       /\ Message.timestamp userMessage = Sample.clock 0.
Proof.
  apply (handleMessageSend_rejected Sample.env_down Sample.chatting
           Sample.helper Sample.world0 "Agent not found");
    reflexivity.
Defined.

(** C10. With no agent selected, or with a typed message that is empty
    or white space only, [handleMessageSend] changes nothing: the state
    it ends in is the state of the render, field for field, and the
    world is the same, so no request was sent. *)
Theorem handleMessageSend_guard (env : Env.t) (st : State) (w : World.t) :
  selectedAgent st = None \/ Js.blank (message st) = true ->
  run (Home.handleMessageSend env) st w = (st, w).
Proof.
  intros H. unfold run, Home.handleMessageSend.
  destruct (selectedAgent st) as [agent|]; [|reflexivity].
  destruct H as [H|H]; [discriminate|].
  rewrite JsFacts.trim_truthy, H. reflexivity.
Qed.

Lemma handleMessageSend_guard_witness :
  run (Home.handleMessageSend Sample.env_up) Sample.chatting_blank
    Sample.world0
  = (Sample.chatting_blank, Sample.world0)
  /\ run (Home.handleMessageSend Sample.env_up) Home.initialState
       Sample.world0
     = (Home.initialState, Sample.world0).
Proof.
  split.
  - apply handleMessageSend_guard. right. reflexivity.
  - apply handleMessageSend_guard. left. reflexivity.
Defined.

(** C3. With a draft of type [tool_calling] and no tool selected,
    [handleCreateAgent] ends with the error [Please select at least one
    tool for the Tool Agent] and sends nothing: the world is the one it
    started from.  The agent list, the draft, the selected agent, the
    selected tools and every other field but [error] and [isLoading]
    are those of the render; [isLoading] ends false. *)
Theorem handleCreateAgent_no_tool (env : Env.t) (st : State) (w : World.t) :
  NewAgent.type (newAgent st) = tool_calling ->
  selectedTools st = [] ->
  let st' := fst (run (Home.handleCreateAgent env) st w) in
  error st' = Some "Please select at least one tool for the Tool Agent"
  /\ snd (run (Home.handleCreateAgent env) st w) = w
  /\ agents st' = agents st
  /\ newAgent st' = newAgent st
  /\ selectedAgent st' = selectedAgent st
  /\ selectedTools st' = selectedTools st
  /\ st' = setIsLoading false
             (setError
                (Some "Please select at least one tool for the Tool Agent")
                st).
Proof.
  intros Htype Htools.
  unfold run, Home.handleCreateAgent, try_catch_finally, tbind, set.
  rewrite Htype, Htools. simpl.
  repeat split; try (symmetry; exact Htools).
  unfold setIsLoading, setError. simpl. now rewrite Htools.
Qed.

Lemma handleCreateAgent_no_tool_witness :
  run (Home.handleCreateAgent Sample.env_up) Sample.drafting_tools
    Sample.world0
  = (setError (Some "Please select at least one tool for the Tool Agent")
       Sample.drafting_tools,
     Sample.world0).
Proof.
  pose proof (handleCreateAgent_no_tool Sample.env_up Sample.drafting_tools
                Sample.world0 eq_refl eq_refl)
    as (_ & Hw & _ & _ & _ & _ & Hst).
  rewrite (surjective_pairing
             (run (Home.handleCreateAgent Sample.env_up)
                Sample.drafting_tools Sample.world0)).
  rewrite Hw, Hst. reflexivity.
Defined.

Lemma selectedAgentEffect_resets (st : State) (agent : Agent.t)
    (w : World.t) :
  selectedAgent st = Some agent ->
  run Home.selectedAgentEffect st w
  = (setMessages [] (setCurrentDocument None (setHasDocument false
       (if Home.isCodingAgent agent then setCodingMode generate st else st))),
     w).
Proof.
  intros H. unfold run, Home.selectedAgentEffect. rewrite H.
  unfold tbind, set, tret. destruct (Home.isCodingAgent agent); reflexivity.
Qed.

(** C7. A change of selection to [agent] ends in a state whose selected
    agent is [agent], whose message list is empty, whose [hasDocument]
    is false and whose [currentDocument] is null, whatever they were;
    the coding mode is [generate] when the type of [agent] is [coding]
    and is left as it was otherwise.  Nothing is sent. *)
Theorem selectAgent_resets (agent : Agent.t) (st : State) (w : World.t) :
  let st' := fst (Home.selectAgent agent st w) in
  selectedAgent st' = Some agent
  /\ messages st' = []
  /\ hasDocument st' = false
  /\ currentDocument st' = None
  /\ (Agent.type agent = "coding" -> codingMode st' = generate)
  /\ (Agent.type agent <> "coding" -> codingMode st' = codingMode st)
  /\ snd (Home.selectAgent agent st w) = w.
Proof.
  assert (Home.selectAgent agent st w
          = run Home.selectedAgentEffect (setSelectedAgent (Some agent) st) w)
    as -> by reflexivity.
  rewrite (selectedAgentEffect_resets (setSelectedAgent (Some agent) st)
             agent w eq_refl).
  unfold Home.isCodingAgent.
  destruct (String.eqb (Agent.type agent) "coding") eqn:E; cbn [fst snd];
    do 4 (split; [reflexivity|]); (split; [|split; [|reflexivity]]).
  - intros _. reflexivity.
  - intros Hne. apply String.eqb_eq in E. contradiction.
  - intros H. apply String.eqb_neq in E. contradiction.
  - intros _. reflexivity.
Qed.

Lemma selectAgent_resets_witness :
  let st' := fst (Home.selectAgent Sample.coder
                    (setCodingMode explain Sample.chatting) Sample.world0) in
  selectedAgent st' = Some Sample.coder
  /\ messages st' = []
  /\ hasDocument st' = false
  /\ currentDocument st' = None
  /\ codingMode st' = generate.
Proof.
  pose proof (selectAgent_resets Sample.coder
                (setCodingMode explain Sample.chatting) Sample.world0)
    as (H1 & H2 & H3 & H4 & H5 & _).
  split; [exact H1|]. split; [exact H2|]. split; [exact H3|].
  split; [exact H4|]. apply H5. reflexivity.
Defined.

Lemma handleCreateAgent_sent (env : Env.t) (st : State) (w : World.t) :
  NewAgent.type (newAgent st) <> tool_calling ->
  NewAgent.name (newAgent st) <> "" ->
  World.sent (snd (run (Home.handleCreateAgent env) st w))
  = World.sent w
    ++ [api.createAgent_request
          (PartialAgent.mk None
             (Some (NewAgent.name (newAgent st)))
             (Some (AgentType_id (NewAgent.type (newAgent st))))
             None
             (Some (NewAgent.configuration (newAgent st))))].
Proof.
  intros Htype Hname.
  assert (Home.agentData st
          = PartialAgent.mk None
              (Some (NewAgent.name (newAgent st)))
              (Some (AgentType_id (NewAgent.type (newAgent st))))
              None
              (Some (NewAgent.configuration (newAgent st)))) as Hdata.
  { unfold Home.agentData.
    destruct (NewAgent.type (newAgent st)); simpl;
      try contradiction; now rewrite (left_id_L ∅ (∪)). }
  unfold run, Home.handleCreateAgent, try_catch_finally, tbind, set, call.
  rewrite Hdata.
  assert (AgentType_eqb (NewAgent.type (newAgent st)) tool_calling = false)
    as -> by (destruct (NewAgent.type (newAgent st)); try reflexivity;
              contradiction).
  unfold api.createAgent. cbn [PartialAgent.name PartialAgent.type].
  assert (Js.truthy_opt (Some (NewAgent.name (newAgent st))) = true) as ->
    by (destruct (NewAgent.name (newAgent st)); [contradiction | reflexivity]).
  assert (Js.truthy_opt
            (Some (AgentType_id (NewAgent.type (newAgent st)))) = true) as ->
    by (destruct (NewAgent.type (newAgent st)); reflexivity).
  unfold bind, fetch. simpl.
  destruct (Env.serve_agent env _ _) as [data|detail|e]; reflexivity.
Qed.

(** C1, on the flow where the type selector is never touched.  The page
    is mounted, the user opens the creation form, types the name
    [Helper] and submits: the draft has type [conversational], the
    text area shows the default prompt template, and the one request
    sent posts an agent whose configuration is the empty mapping, so
    that it has no [prompt_template]. *)
Theorem untouched_conversational_draft_posts_no_template (env : Env.t)
    (w : World.t) :
  let st := fst (Sample.untouched_draft w) in
  NewAgent.type (newAgent st) = conversational
  /\ AgentCreationForm.shown_prompt_template st
     = JStr AgentCreationForm.default_prompt_template
  /\ exists configuration : gmap string Json,
       World.sent
         (snd (run (Home.handleCreateAgent env) st
                 (snd (Sample.untouched_draft w))))
       = World.sent w
         ++ [Request.mk POST (API_BASE_URL +:+ "/agents/")
               [("Content-Type", "application/json")]
               (Some (JsonAgent
                        (PartialAgent.mk None (Some "Helper")
                           (Some "conversational") (Some active)
                           (Some configuration))))]
       /\ configuration = ∅
       /\ configuration !! "prompt_template" = None.
Proof.
  assert (Sample.untouched_draft w
          = (setNewAgent (NewAgent.mk "Helper" conversational ∅)
               (setIsCreating true Home.initialState), w)) as ->
    by reflexivity.
  cbn [fst snd].
  split; [reflexivity|]. split; [reflexivity|].
  exists ∅. split; [|split; [reflexivity | apply lookup_empty]].
  rewrite handleCreateAgent_sent by (simpl; discriminate).
  reflexivity.
Qed.

(** The sibling path: when the user has picked [conversational] in the
    type selector, the posted configuration holds the default prompt
    template. *)
Lemma reselected_conversational_draft_posts_template (env : Env.t)
    (w : World.t) :
  let st := fst (Sample.reselected_draft w) in
  NewAgent.type (newAgent st) = conversational
  /\ exists configuration : gmap string Json,
       World.sent
         (snd (run (Home.handleCreateAgent env) st
                 (snd (Sample.reselected_draft w))))
       = World.sent w
         ++ [Request.mk POST (API_BASE_URL +:+ "/agents/")
               [("Content-Type", "application/json")]
               (Some (JsonAgent
                        (PartialAgent.mk None (Some "Helper")
                           (Some "conversational") (Some active)
                           (Some configuration))))]
       /\ configuration !! "prompt_template"
          = Some (JStr AgentCreationForm.default_prompt_template).
Proof.
  assert (Sample.reselected_draft w
          = (setSelectedTools []
               (setShowToolManager false
                  (setNewAgent
                     (NewAgent.mk "Helper" conversational
                        {[ "prompt_template" :=
                             JStr AgentCreationForm.default_prompt_template ]})
                     (setIsCreating true Home.initialState))), w)) as ->
    by reflexivity.
  cbn [fst snd].
  split; [reflexivity|].
  exists {[ "prompt_template" :=
              JStr AgentCreationForm.default_prompt_template ]}.
  split; [|apply lookup_singleton_eq].
  rewrite handleCreateAgent_sent by (simpl; discriminate).
  reflexivity.
Qed.

End HomeSpec.

(** * Properties of the rest of the code *)

(** ** More on the JavaScript primitives *)

Module JsMore.

Lemma lowerChar_idempotent (c : ascii) :
  Js.lowerChar (Js.lowerChar c) = Js.lowerChar c.
Proof.
  destruct c as [[] [] [] [] [] [] [] []]; vm_compute; reflexivity.
Qed.

Lemma toLowerCase_idempotent (s : string) :
  Js.toLowerCase (Js.toLowerCase s) = Js.toLowerCase s.
Proof.
  induction s as [|c s IH]; [reflexivity|].
  cbn [Js.toLowerCase]. now rewrite lowerChar_idempotent, IH.
Qed.

Lemma or_else_some (d fallback : string) :
  d <> "" -> Js.or_else (Some d) fallback = d.
Proof. destruct d; [contradiction | reflexivity]. Qed.

End JsMore.

(** ** The rest of the API client *)

Module ApiRestSpec.

Lemma set_type_lowered (agent : Agent.t) :
  Shape.lowered agent
    (Agent.set_type (Js.toLowerCase (Agent.type agent)) agent).
Proof.
  unfold Shape.lowered. simpl.
  do 5 (split; [reflexivity|]). apply JsMore.toLowerCase_idempotent.
Qed.

(** X1. When the server answers the agent list [data], [listAgents]
    sends the one request [GET /agents/] and resolves to a list that
    pairs off with [data] in order: each agent with the same id, name,
    status and configuration, and its [type] in lower case, which
    lower-casing again leaves alone. *)
Theorem listAgents_lowercases (b : Backend.t) (w : World.t)
    (data : list Agent.t) :
  Backend.serve_agents b (World.sent w)
    (Request.mk GET (API_BASE_URL +:+ "/agents/") [] None) = HttpOk data ->
  exists result : list Agent.t,
    api_rest.listAgents b w
    = (Resolved result,
       Shape.after w (Request.mk GET (API_BASE_URL +:+ "/agents/") [] None))
    /\ Forall2 Shape.lowered data result.
Proof.
  intros Hserve.
  exists (map (fun agent =>
                 Agent.set_type (Js.toLowerCase (Agent.type agent)) agent)
            data).
  split.
  - unfold api_rest.listAgents, bind, fetch. rewrite Hserve. reflexivity.
  - clear Hserve. induction data as [|agent data IH]; constructor.
    + apply set_type_lowered.
    + exact IH.
Qed.

Lemma listAgents_lowercases_witness :
  exists result : list Agent.t,
    fst (api_rest.listAgents Sample2.backend_up Sample.world0)
    = Resolved result
    /\ Forall2 Shape.lowered Sample2.served_agents result
    /\ map Agent.type result = ["conversational"; "rag"].
Proof.
  destruct (listAgents_lowercases Sample2.backend_up Sample.world0
              Sample2.served_agents eq_refl) as (result & Hrun & Hlow).
  exists result.
  split; [now rewrite Hrun|]. split; [exact Hlow|].
  injection Hrun as <-. reflexivity.
Defined.

(** X2. When the response is not ok, each of [listTools], [getTool],
    [createTool] and [createToolFromCode] rejects with the [detail] of
    the body when that is a non-empty string and with its own message
    otherwise ([Failed to list tools], [Failed to get tool], [Failed to
    create tool], [Failed to create tool from code]); when [fetch] or the
    parsing of the body fails with [e], it rejects with [e] itself.  In
    each case the world holds the one request more. *)
Theorem tool_functions_rejection (env : Env.t) (w : World.t) (name : string)
    (request : CreateToolRequest.t)
    (code_request : CreateToolFromCodeRequest.t) :
  let list_req := Request.mk GET (API_BASE_URL +:+ "/tools") [] None in
  let get_req :=
    Request.mk GET (API_BASE_URL +:+ "/tools/" +:+ name) [] None in
  let create_req :=
    Request.mk POST (API_BASE_URL +:+ "/tools")
      [("Content-Type", "application/json")] (Some (JsonCreateTool request)) in
  let code_req :=
    Request.mk POST (API_BASE_URL +:+ "/tools/code")
      [("Content-Type", "application/json")]
      (Some (JsonCreateToolFromCode code_request)) in
  (forall detail,
     Env.serve_tools env (World.sent w) list_req = HttpNotOk detail ->
     api.listTools env w
     = (Rejected (Shape.reason detail "Failed to list tools"),
        Shape.after w list_req))
  /\ (forall e,
        Env.serve_tools env (World.sent w) list_req = HttpFail e ->
        api.listTools env w = (Rejected e, Shape.after w list_req))
  /\ (forall detail,
        Env.serve_tool env (World.sent w) get_req = HttpNotOk detail ->
        api.getTool env name w
        = (Rejected (Shape.reason detail "Failed to get tool"),
           Shape.after w get_req))
  /\ (forall e,
        Env.serve_tool env (World.sent w) get_req = HttpFail e ->
        api.getTool env name w = (Rejected e, Shape.after w get_req))
  /\ (forall detail,
        Env.serve_tool env (World.sent w) create_req = HttpNotOk detail ->
        api.createTool env request w
        = (Rejected (Shape.reason detail "Failed to create tool"),
           Shape.after w create_req))
  /\ (forall e,
        Env.serve_tool env (World.sent w) create_req = HttpFail e ->
        api.createTool env request w = (Rejected e, Shape.after w create_req))
  /\ (forall detail,
        Env.serve_tool env (World.sent w) code_req = HttpNotOk detail ->
        api.createToolFromCode env code_request w
        = (Rejected (Shape.reason detail "Failed to create tool from code"),
           Shape.after w code_req))
  /\ (forall e,
        Env.serve_tool env (World.sent w) code_req = HttpFail e ->
        api.createToolFromCode env code_request w
        = (Rejected e, Shape.after w code_req)).
Proof.
  unfold api.listTools, api.getTool, api.createTool, api.createToolFromCode,
    bind, fetch, json_headers, Shape.after.
  cbv zeta.
  repeat split; intros x Hserve; rewrite Hserve; simpl;
    try reflexivity; destruct x as [[|c d]|]; reflexivity.
Qed.

Lemma tool_functions_rejection_witness :
  fst (api.listTools Sample.env_down Sample.world0)
  = Rejected "Service unavailable"
  /\ fst (api.getTool Sample.env_down "add" Sample.world0)
     = Rejected "Failed to get tool".
Proof.
  pose proof (tool_functions_rejection Sample.env_down Sample.world0 "add"
                (CreateToolRequest.mk "Add two numbers" None "ann")
                (CreateToolFromCodeRequest.mk "add" "def add(a, b): ..." "ann"))
    as (H1 & _ & H3 & _).
  split.
  - rewrite (H1 (Some "Service unavailable")); reflexivity.
  - rewrite (H3 None); reflexivity.
Defined.

(** X3. The same for the agent functions.  When the response is not
    ok, [listAgents], [createAgent] (called with a name and a type),
    [uploadDocument], [queryAgent] and [interactWithAgent] reject with
    the [detail] of the body when that is a non-empty string and with
    their own message otherwise; an ok response is not needed for the
    request to be counted: the world holds it, and the clock was not
    read. *)
Theorem agent_functions_rejection (b : Backend.t) (w : World.t)
    (agent : PartialAgent.t) (agentId : Z) (file : File.t) (text : string)
    (context : option (list (string * string))) (detail : option string) :
  let env := Backend.env b in
  let list_req := Request.mk GET (API_BASE_URL +:+ "/agents/") [] None in
  (Backend.serve_agents b (World.sent w) list_req = HttpNotOk detail ->
   api_rest.listAgents b w
   = (Rejected (Shape.reason detail "Failed to list agents"),
      Shape.after w list_req))
  /\ (~ Spec.lacks_name_or_type agent ->
      Env.serve_agent env (World.sent w) (api.createAgent_request agent)
      = HttpNotOk detail ->
      api.createAgent env agent w
      = (Rejected (Shape.reason detail "Failed to create agent"),
         Shape.after w (api.createAgent_request agent)))
  /\ (Backend.serve_upload b (World.sent w)
        (api_rest.uploadDocument_request agentId file) = HttpNotOk detail ->
      api_rest.uploadDocument b agentId file w
      = (Rejected (Shape.reason detail "Failed to upload document"),
         Shape.after w (api_rest.uploadDocument_request agentId file)))
  /\ (Env.serve_interaction env (World.sent w)
        (api.queryAgent_request agentId text context) = HttpNotOk detail ->
      api.queryAgent env agentId text context w
      = (Rejected (Shape.reason detail "Failed to query agent"),
         Shape.after w (api.queryAgent_request agentId text context)))
  /\ (Env.serve_interaction env (World.sent w)
        (api.interactWithAgent_request agentId text) = HttpNotOk detail ->
      api.interactWithAgent env agentId text w
      = (Rejected (Shape.reason detail "Failed to interact with agent"),
         Shape.after w (api.interactWithAgent_request agentId text))).
Proof.
  cbv zeta.
  assert (forall fallback, Js.or_else detail fallback
                           = Shape.reason detail fallback) as Hreason
    by (intros fallback; destruct detail as [[|c d]|]; reflexivity).
  split; [|split; [|split; [|split]]].
  - intros Hserve. unfold api_rest.listAgents, bind, fetch.
    rewrite Hserve. simpl. now rewrite Hreason.
  - intros Hnamed Hserve.
    assert (negb (Js.truthy_opt (PartialAgent.name agent))
            || negb (Js.truthy_opt (PartialAgent.type agent)) = false) as E.
    { destruct (_ || _) eqn:E; [|reflexivity].
      apply ApiSpec.lacks_name_or_type_spec in E. contradiction. }
    unfold api.createAgent. rewrite E. unfold bind, fetch.
    rewrite Hserve. simpl. now rewrite Hreason.
  - intros Hserve. unfold api_rest.uploadDocument, bind, fetch.
    rewrite Hserve. simpl. now rewrite Hreason.
  - intros Hserve. unfold api.queryAgent, bind, fetch.
    rewrite Hserve. simpl. now rewrite Hreason.
  - intros Hserve. unfold api.interactWithAgent, bind, fetch.
    rewrite Hserve. simpl. now rewrite Hreason.
Qed.

Lemma agent_functions_rejection_witness :
  fst (api_rest.listAgents Sample2.backend_down Sample.world0)
  = Rejected "Failed to list agents"
  /\ fst (api_rest.uploadDocument Sample2.backend_down 9 Sample2.notes
            Sample.world0)
     = Rejected "File too large"
  /\ api.queryAgent Sample.env_down 9 "hello" None Sample.world0
     = (Rejected "Agent not found",
        World.mk [api.queryAgent_request 9 "hello" None] 0).
Proof.
  split; [|split].
  - pose proof (agent_functions_rejection Sample2.backend_down Sample.world0
                  Sample.partial_named 9 Sample2.notes "hello" None (Some ""))
      as (H & _).
    rewrite H; reflexivity.
  - pose proof (agent_functions_rejection Sample2.backend_down Sample.world0
                  Sample.partial_named 9 Sample2.notes "hello" None
                  (Some "File too large")) as (_ & _ & H & _).
    rewrite H; reflexivity.
  - pose proof (agent_functions_rejection Sample2.backend_down Sample.world0
                  Sample.partial_named 9 Sample2.notes "hello" None
                  (Some "Agent not found")) as (_ & _ & _ & H & _).
    exact (H eq_refl).
Defined.

(** X4. The two deletions read the body at different moments.  On an ok
    response [deleteTool] resolves without reading the body, whatever it
    holds, while [deleteAgent] reads it first: it resolves to the body
    when it parses and rejects with the parse error when it does not.
    On a response that is not ok both read the body; when it does not
    parse both reject with the parse error, not with their own
    message. *)
Theorem deletions_and_the_body (b : Backend.t) (w : World.t) (name : string)
    (agentId : Z) :
  (forall json : Outcome ParsedBody.t,
     Backend.serve_delete b (World.sent w) (api_rest.deleteTool_request name)
     = RawResponse true json ->
     api_rest.deleteTool b name w
     = (Resolved tt, Shape.after w (api_rest.deleteTool_request name)))
  /\ (forall json : Outcome ParsedBody.t,
        Backend.serve_delete b (World.sent w)
          (api_rest.deleteAgent_request agentId) = RawResponse true json ->
        api_rest.deleteAgent b agentId w
        = (json, Shape.after w (api_rest.deleteAgent_request agentId)))
  /\ (forall e : string,
        Backend.serve_delete b (World.sent w)
          (api_rest.deleteTool_request name)
        = RawResponse false (Rejected e) ->
        api_rest.deleteTool b name w
        = (Rejected e, Shape.after w (api_rest.deleteTool_request name)))
  /\ (forall e : string,
        Backend.serve_delete b (World.sent w)
          (api_rest.deleteAgent_request agentId)
        = RawResponse false (Rejected e) ->
        api_rest.deleteAgent b agentId w
        = (Rejected e, Shape.after w (api_rest.deleteAgent_request agentId)))
  /\ (forall data : ParsedBody.t,
        Backend.serve_delete b (World.sent w)
          (api_rest.deleteTool_request name)
        = RawResponse false (Resolved data) ->
        api_rest.deleteTool b name w
        = (Rejected
             (Shape.reason (ParsedBody.detail data) "Failed to delete tool"),
           Shape.after w (api_rest.deleteTool_request name)))
  /\ (forall data : ParsedBody.t,
        Backend.serve_delete b (World.sent w)
          (api_rest.deleteAgent_request agentId)
        = RawResponse false (Resolved data) ->
        api_rest.deleteAgent b agentId w
        = (Rejected
             (Shape.reason (ParsedBody.detail data) "Failed to delete agent"),
           Shape.after w (api_rest.deleteAgent_request agentId))).
Proof.
  unfold api_rest.deleteTool, api_rest.deleteAgent, bind, fetch_raw,
    response_json, Shape.after.
  split; [|split; [|split; [|split; [|split]]]].
  - intros json ->. reflexivity.
  - intros json ->. destruct json; reflexivity.
  - intros e ->. reflexivity.
  - intros e ->. reflexivity.
  - intros data ->. simpl.
    destruct (ParsedBody.detail data) as [[|c d]|]; reflexivity.
  - intros data ->. simpl.
    destruct (ParsedBody.detail data) as [[|c d]|]; reflexivity.
Qed.

Lemma deletions_and_the_body_witness :
  fst (api_rest.deleteTool Sample2.backend_up "weather" Sample.world0)
  = Resolved tt
  /\ fst (api_rest.deleteAgent Sample2.backend_up 7 Sample.world0)
     = Rejected "Unexpected end of JSON input"
  /\ fst (api_rest.deleteTool Sample2.backend_down "weather" Sample.world0)
     = Rejected "Unexpected end of JSON input".
Proof.
  pose proof (deletions_and_the_body Sample2.backend_up Sample.world0
                "weather" 7) as (H1 & H2 & _).
  pose proof (deletions_and_the_body Sample2.backend_down Sample.world0
                "weather" 7) as (_ & _ & H3 & _).
  split; [|split].
  - rewrite (H1 Sample2.unparseable); reflexivity.
  - rewrite (H2 Sample2.unparseable); reflexivity.
  - rewrite (H3 "Unexpected end of JSON input"); reflexivity.
Defined.

End ApiRestSpec.

(** ** The rest of the root controller *)

Module HomeRestSpec.

(** A creation that passes the tool check, step by step. *)
Lemma handleCreateAgent_run (env : Env.t) (st : State) (w : World.t) :
  AgentType_eqb (NewAgent.type (newAgent st)) tool_calling
  && (List.length (selectedTools st) =? 0) = false ->
  run (Home.handleCreateAgent env) st w
  = let cur := setError None (setIsLoading true st) in
    match api.createAgent env (Home.agentData st) w with
    | (Resolved agent, w') =>
        (setIsLoading false
           (setShowToolManager false
              (setSelectedTools []
                 (setNewAgent (NewAgent.mk "" (selectedType st) ∅)
                    (setSelectedAgent (Some agent)
                       (setIsCreating false
                          (setAgents (agents st ++ [agent]) cur)))))),
         w')
    | (Rejected _, w') =>
        (setIsLoading false (setError (Some "Failed to create agent") cur), w')
    end.
Proof.
  intros Hguard.
  unfold run, Home.handleCreateAgent, try_catch_finally, tbind, set, call.
  rewrite Hguard.
  destruct (api.createAgent env (Home.agentData st) w)
    as [[agent|reason] w']; reflexivity.
Qed.

Lemma tool_check_passes (st : State) :
  (NewAgent.type (newAgent st) = tool_calling -> selectedTools st <> []) ->
  AgentType_eqb (NewAgent.type (newAgent st)) tool_calling
  && (List.length (selectedTools st) =? 0) = false.
Proof.
  intros H.
  destruct (NewAgent.type (newAgent st)); try reflexivity.
  destruct (selectedTools st); [|reflexivity].
  exfalso. now apply H.
Qed.

Lemma agentData_named (st : State) :
  NewAgent.name (newAgent st) <> "" ->
  negb (Js.truthy_opt (PartialAgent.name (Home.agentData st)))
  || negb (Js.truthy_opt (PartialAgent.type (Home.agentData st))) = false.
Proof.
  intros Hname. unfold Home.agentData. simpl.
  destruct (NewAgent.name (newAgent st)); [contradiction|].
  destruct (NewAgent.type (newAgent st)); reflexivity.
Qed.

(** X5. A creation that succeeds.  With a named draft that passes the
    tool check, when the server answers the request with the agent
    [data], [handleCreateAgent] sends that one request and ends with the
    created agent, [data] with its type in lower case, appended to the
    agent list and selected, the form closed, the draft reset to an
    unnamed draft of the sidebar type with the empty configuration, no
    tool selected, the tool manager hidden, the loading flag down and no
    error.  Once the effect on the selection has run the message list is
    empty, and the content area shows the document upload when the
    created agent is a [rag] agent and the chat otherwise. *)
Theorem handleCreateAgent_success (env : Env.t) (st : State) (w : World.t)
    (data : Agent.t) :
  NewAgent.name (newAgent st) <> "" ->
  (NewAgent.type (newAgent st) = tool_calling -> selectedTools st <> []) ->
  Env.serve_agent env (World.sent w)
    (api.createAgent_request (Home.agentData st)) = HttpOk data ->
  let created :=
    Agent.mk (Agent.id data) (Agent.name data)
      (Js.toLowerCase (Agent.type data)) (Agent.status data)
      (Agent.configuration data) in
  let st' := fst (run (Home.handleCreateAgent env) st w) in
  let w' := snd (run (Home.handleCreateAgent env) st w) in
  let st'' := fst (run Home.selectedAgentEffect st' w') in
  w' = Shape.after w (api.createAgent_request (Home.agentData st))
  /\ agents st' = agents st ++ [created]
  /\ selectedAgent st' = Some created
  /\ isCreating st' = false
  /\ newAgent st' = NewAgent.mk "" (selectedType st) ∅
  /\ selectedTools st' = []
  /\ showToolManager st' = false
  /\ isLoading st' = false
  /\ error st' = None
  /\ messages st'' = []
  /\ hasDocument st'' = false
  /\ HomeRest.content st''
     = if String.eqb (Js.toLowerCase (Agent.type data)) "rag"
       then HomeRest.ShowDocumentUpload
       else HomeRest.ShowChatInterface.
Proof.
  intros Hname Htools Hserve.
  cbv zeta.
  rewrite (handleCreateAgent_run env st w (tool_check_passes st Htools)).
  cbv zeta.
  unfold api.createAgent. rewrite (agentData_named st Hname).
  unfold bind, fetch. rewrite Hserve. cbn [expect_ok ret fst snd].
  unfold run, Home.selectedAgentEffect.
  cbn [selectedAgent setIsLoading setShowToolManager setSelectedTools
       setNewAgent setSelectedAgent].
  unfold tbind, set, tret, Home.isCodingAgent, HomeRest.content.
  cbn [Agent.type Agent.set_type].
  destruct (String.eqb (Js.toLowerCase (Agent.type data)) "coding") eqn:Ec;
    destruct (String.eqb (Js.toLowerCase (Agent.type data)) "rag") eqn:Er;
    cbn; rewrite ?Er; repeat split.
Qed.

Lemma handleCreateAgent_success_witness :
  let st' :=
    fst (run (Home.handleCreateAgent Sample.env_up) Sample2.drafting
           Sample.world0) in
  agents st' = [Sample.helper; Sample.helper]
  /\ selectedAgent st' = Some Sample.helper
  /\ isCreating st' = false
  /\ newAgent st' = NewAgent.mk "" conversational ∅.
Proof.
  pose proof (handleCreateAgent_success Sample.env_up Sample2.drafting
                Sample.world0 Sample.served_agent) as H.
  cbv zeta in H.
  destruct H as (_ & H1 & H2 & H3 & H4 & _).
  - discriminate.
  - discriminate.
  - reflexivity.
  - split; [exact H1|]. split; [exact H2|]. split; [exact H3 | exact H4].
Defined.

(** X6. A creation that fails.  With a draft that passes the tool
    check, when [createAgent] rejects, for whatever reason,
    [handleCreateAgent] ends with the error [Failed to create agent] and
    the loading flag down; the agent list, the selected agent, the draft,
    the selected tools and the flags of the form are those of the render,
    so the form stays open on the same draft.  A draft with an empty name
    is such a case, and then nothing is sent. *)
Theorem handleCreateAgent_failure (env : Env.t) (st : State) (w : World.t) :
  (NewAgent.type (newAgent st) = tool_calling -> selectedTools st <> []) ->
  let st' := fst (run (Home.handleCreateAgent env) st w) in
  ((exists reason : string,
      fst (api.createAgent env (Home.agentData st) w) = Rejected reason) ->
   error st' = Some "Failed to create agent"
   /\ isLoading st' = false
   /\ agents st' = agents st
   /\ selectedAgent st' = selectedAgent st
   /\ newAgent st' = newAgent st
   /\ selectedTools st' = selectedTools st
   /\ isCreating st' = isCreating st
   /\ showToolManager st' = showToolManager st
   /\ messages st' = messages st)
  /\ (NewAgent.name (newAgent st) = "" ->
      error st' = Some "Failed to create agent"
      /\ snd (run (Home.handleCreateAgent env) st w) = w).
Proof.
  intros Htools. cbv zeta.
  rewrite (handleCreateAgent_run env st w (tool_check_passes st Htools)).
  cbv zeta. split.
  - intros (reason & Hrej).
    destruct (api.createAgent env (Home.agentData st) w)
      as [[agent|reason'] w']; [discriminate Hrej|].
    repeat split.
  - intros Hname.
    unfold api.createAgent, Home.agentData.
    cbn [PartialAgent.name PartialAgent.type].
    rewrite Hname. cbn. split; reflexivity.
Qed.

Lemma handleCreateAgent_failure_witness :
  let st' :=
    fst (run (Home.handleCreateAgent Sample.env_down) Sample2.drafting
           Sample.world0) in
  error st' = Some "Failed to create agent"
  /\ isCreating st' = true
  /\ newAgent st' = NewAgent.mk "Helper" conversational ∅
  /\ snd (run (Home.handleCreateAgent Sample.env_up)
            (setNewAgent (NewAgent.mk "" rag ∅) Sample2.drafting)
            Sample.world0)
     = Sample.world0.
Proof.
  pose proof (handleCreateAgent_failure Sample.env_down Sample2.drafting
                Sample.world0) as H.
  pose proof (handleCreateAgent_failure Sample.env_up
                (setNewAgent (NewAgent.mk "" rag ∅) Sample2.drafting)
                Sample.world0) as H'.
  cbv zeta in H, H'.
  destruct H as [H _]; [discriminate|].
  destruct H' as [_ H']; [discriminate|].
  destruct H as (H1 & _ & _ & _ & H5 & _ & H7 & _).
  { exists "Failed to fetch". reflexivity. }
  destruct (H' eq_refl) as [_ Hw].
  split; [exact H1|]. split; [exact H7|]. split; [exact H5 | exact Hw].
Defined.

(** X7. What [handleCreateAgent] hands to [createAgent]: the name and
    the type of the draft, no id and no status.  Its configuration is the
    one of the draft when the type is not [tool_calling]; when it is,
    [tools] holds the names of the selected tools in their order and
    [prompt_template] holds the generated template, whatever the draft
    had under these two keys, and every other key is as in the draft. *)
Theorem agentData_configuration (st : State) :
  PartialAgent.id (Home.agentData st) = None
  /\ PartialAgent.name (Home.agentData st) = Some (NewAgent.name (newAgent st))
  /\ PartialAgent.type (Home.agentData st)
     = Some (AgentType_id (NewAgent.type (newAgent st)))
  /\ PartialAgent.status (Home.agentData st) = None
  /\ (NewAgent.type (newAgent st) <> tool_calling ->
      PartialAgent.configuration (Home.agentData st)
      = Some (NewAgent.configuration (newAgent st)))
  /\ (NewAgent.type (newAgent st) = tool_calling ->
      exists configuration : gmap string Json,
        PartialAgent.configuration (Home.agentData st) = Some configuration
        /\ configuration !! "tools"
           = Some (JArr (map (fun tool => JStr (SelectedTool.name tool))
                          (selectedTools st)))
        /\ configuration !! "prompt_template"
           = Some (JStr (Home.tool_prompt_template (selectedTools st)))
        /\ forall key : string,
             key <> "tools" -> key <> "prompt_template" ->
             configuration !! key
             = NewAgent.configuration (newAgent st) !! key).
Proof.
  do 4 (split; [reflexivity|]). split.
  - intros Htype. unfold Home.agentData.
    destruct (NewAgent.type (newAgent st)); simpl;
      try contradiction; now rewrite (left_id_L ∅ (∪)).
  - intros Htype. unfold Home.agentData. rewrite Htype. simpl.
    eexists. split; [reflexivity|].
    split; [|split].
    + rewrite lookup_union_l'; [apply lookup_insert_eq|].
      rewrite lookup_insert_eq. eauto.
    + rewrite lookup_union_l'.
      * rewrite lookup_insert_ne by discriminate. apply lookup_singleton_eq.
      * rewrite lookup_insert_ne by discriminate.
        rewrite lookup_singleton_eq. eauto.
    + intros key Htools Htemplate.
      apply lookup_union_r.
      rewrite lookup_insert_ne by congruence.
      apply lookup_singleton_ne. congruence.
Qed.

Lemma agentData_configuration_witness :
  exists configuration : gmap string Json,
    PartialAgent.configuration (Home.agentData Sample2.drafting_calculator)
    = Some configuration
    /\ configuration !! "tools" = Some (JArr [JStr "multiply"])
    /\ configuration !! "prompt_template"
       = Some (JStr
                 ("You are an AI assistant with access to the following tools:"
                  +:+ Js.LF +:+ "- multiply: Multiply two numbers"
                  +:+ Js.LF +:+ Js.LF
                  +:+ "Please help with the following request:"
                  +:+ Js.LF +:+ "{input}"))
    /\ configuration !! "temperature" = Some (JNum 1).
Proof.
  destruct (agentData_configuration Sample2.drafting_calculator)
    as (_ & _ & _ & _ & _ & H).
  destruct (H eq_refl) as (configuration & Hc & Htools & Htemplate & Hrest).
  exists configuration.
  split; [exact Hc|]. split; [exact Htools|]. split; [exact Htemplate|].
  rewrite Hrest by discriminate.
  unfold Sample2.drafting_calculator. simpl.
  rewrite lookup_insert_ne by discriminate. apply lookup_singleton_eq.
Defined.

(** X8. A send that succeeds.  When the server answers the query with
    [data], the send ends with the message list of the render followed
    by the user message and then the assistant message: the first holds
    the typed text and the first reading of the clock, the second holds
    [data.response], the second reading of the clock and the formatted
    code of the metadata.  The input is cleared and the loading flag is
    down; the error is the one of the render, so a banner shown before
    the send is still shown after it. *)
Theorem handleMessageSend_success (env : Env.t) (st : State)
    (agent : Agent.t) (w : World.t) (data : InteractionBody.t) :
  selectedAgent st = Some agent ->
  Js.blank (message st) = false ->
  Env.serve_interaction env (World.sent w)
    (api.queryAgent_request (Agent.id agent) (Home.messageWithHistory st)
       (Home.queryContext st agent)) = HttpOk data ->
  let st' := fst (run (Home.handleMessageSend env) st w) in
  let w' := snd (run (Home.handleMessageSend env) st w) in
  (exists userMessage agentMessage : Message.t,
     messages st' = messages st ++ [userMessage; agentMessage]
     /\ Message.role userMessage = user
     /\ Message.content userMessage = message st
     /\ Message.timestamp userMessage = Env.toISOString env (World.ticks w)
     /\ Message.role agentMessage = assistant
     /\ Message.content agentMessage = InteractionBody.response data
     /\ Message.timestamp agentMessage
        = Env.toISOString env (S (World.ticks w))
     /\ Message.code agentMessage
        = match InteractionBody.metadata data with
          | Some metadata => Metadata.formatted_code metadata
          | None => None
          end)
  /\ message st' = ""
  /\ isLoading st' = false
  /\ error st' = error st
  /\ selectedAgent st' = selectedAgent st
  /\ World.ticks w' = S (S (World.ticks w)).
Proof.
  intros Hsel Hblank Hserve. cbv zeta.
  rewrite (HomeSpec.handleMessageSend_run env st agent w Hsel Hblank).
  cbv zeta.
  unfold api.queryAgent, bind, fetch, Date_toISOString.
  cbn [World.sent World.ticks]. rewrite Hserve. cbn [expect_ok ret fst snd].
  split.
  - exists (Home.userMessage st agent (Env.toISOString env (World.ticks w))).
    eexists. split.
    + unfold Home.awaiting. cbn. rewrite <- app_assoc. reflexivity.
    + repeat split.
  - repeat split.
Qed.

Lemma handleMessageSend_success_witness :
  let st' :=
    fst (run (Home.handleMessageSend Sample.env_up)
           (setError (Some "Failed to load agents") Sample.chatting)
           Sample.world0) in
  messages st'
  = Sample.six_messages
    ++ [Message.mk user "seven" (Sample.clock 0) None None (Some false);
        Message.mk assistant "Hello!" (Sample.clock 1) (Some "python") None
          None]
  /\ message st' = ""
  /\ error st' = Some "Failed to load agents".
Proof.
  pose proof (handleMessageSend_success Sample.env_up
                (setError (Some "Failed to load agents") Sample.chatting)
                Sample.helper Sample.world0 Sample.served_body
                eq_refl eq_refl eq_refl) as H.
  cbv zeta in H. destruct H as (_ & H2 & _ & H4 & _).
  split; [reflexivity|]. split; [exact H2 | exact H4].
Defined.

(** An upload for the selected agent, step by step. *)
Lemma handleFileUpload_run (b : Backend.t) (file : File.t) (st : State)
    (agent : Agent.t) (w : World.t) :
  selectedAgent st = Some agent ->
  run (HomeRest.handleFileUpload b file) st w
  = let cur := setIsProcessingDocument true st in
    let failed :=
      setIsProcessingDocument false
        (setError (Some "Failed to process document") cur) in
    match api_rest.uploadDocument b (Agent.id agent) file w with
    | (Rejected _, w1) => (failed, w1)
    | (Resolved _, w1) =>
        match api.queryAgent (Backend.env b) (Agent.id agent)
                HomeRest.summary_prompt None w1 with
        | (Rejected _, w2) => (failed, w2)
        | (Resolved response, w2) =>
            (setIsProcessingDocument false
               (setMessages
                  [Message.mk assistant
                     (AgentInteractionResponse.response response)
                     (AgentInteractionResponse.created_at response)
                     None None None]
                  (setCurrentDocument (Some (File.name file))
                     (setHasDocument true cur))),
             w2)
        end
    end.
Proof.
  intros Hsel.
  unfold run, HomeRest.handleFileUpload, try_catch_finally, tbind, set, call,
    HomeRest.selectedAgent_id.
  rewrite Hsel. cbn [ret].
  destruct (api_rest.uploadDocument b (Agent.id agent) file w)
    as [[uploaded|reason] w1]; [|reflexivity].
  destruct (api.queryAgent (Backend.env b) (Agent.id agent)
              HomeRest.summary_prompt None w1)
    as [[response|reason] w2]; reflexivity.
Qed.

(** X9. An upload that succeeds.  With an agent selected, when the
    server accepts the document and then answers the summary query with
    [data], [handleFileUpload] sends two requests, the upload and then
    the query of the fixed summary prompt with no context, and ends with
    the message list replaced by the one assistant message holding
    [data.response] and the reading of the clock, [hasDocument] true,
    [currentDocument] the name of the file and the processing flag down.
    Outside the creation form the content area then shows the chat. *)
Theorem handleFileUpload_success (b : Backend.t) (file : File.t) (st : State)
    (agent : Agent.t) (w : World.t) (uploaded : Json)
    (data : InteractionBody.t) :
  let upload := api_rest.uploadDocument_request (Agent.id agent) file in
  let query :=
    api.queryAgent_request (Agent.id agent)
      "Please provide a brief summary of this document." None in
  selectedAgent st = Some agent ->
  Backend.serve_upload b (World.sent w) upload = HttpOk uploaded ->
  Env.serve_interaction (Backend.env b) (World.sent w ++ [upload]) query
  = HttpOk data ->
  let st' := fst (run (HomeRest.handleFileUpload b file) st w) in
  snd (run (HomeRest.handleFileUpload b file) st w)
  = World.mk (World.sent w ++ [upload; query]) (S (World.ticks w))
  /\ messages st'
     = [Message.mk assistant (InteractionBody.response data)
          (Env.toISOString (Backend.env b) (World.ticks w)) None None None]
  /\ hasDocument st' = true
  /\ currentDocument st' = Some (File.name file)
  /\ isProcessingDocument st' = false
  /\ error st' = error st
  /\ selectedAgent st' = Some agent
  /\ (isCreating st = false ->
      HomeRest.content st' = HomeRest.ShowChatInterface).
Proof.
  cbv zeta. intros Hsel Hupload Hquery.
  rewrite (handleFileUpload_run b file st agent w Hsel). cbv zeta.
  unfold api_rest.uploadDocument, api.queryAgent, bind, fetch,
    Date_toISOString, HomeRest.summary_prompt.
  rewrite Hupload. cbn [expect_ok ret World.sent World.ticks].
  rewrite Hquery. cbn [expect_ok ret fst snd].
  split; [cbn [World.sent World.ticks]; rewrite <- app_assoc; reflexivity|].
  do 5 (split; [reflexivity|]). split; [exact Hsel|].
  intros Hcreating. unfold HomeRest.content. cbn.
  rewrite Hcreating, Hsel. now rewrite andb_false_r.
Qed.

Lemma handleFileUpload_success_witness :
  let st' :=
    fst (run (HomeRest.handleFileUpload Sample2.backend_up Sample2.notes)
           Sample2.awaiting_document Sample.world0) in
  HomeRest.content Sample2.awaiting_document = HomeRest.ShowDocumentUpload
  /\ HomeRest.content st' = HomeRest.ShowChatInterface
  /\ messages st'
     = [Message.mk assistant "Hello!" (Sample.clock 0) None None None]
  /\ currentDocument st' = Some "notes.pdf".
Proof.
  pose proof (handleFileUpload_success Sample2.backend_up Sample2.notes
                Sample2.awaiting_document Sample2.librarian Sample.world0
                (JStr "stored") Sample.served_body eq_refl eq_refl eq_refl)
    as H.
  cbv zeta in H. destruct H as (_ & H2 & _ & H4 & _ & _ & _ & H8).
  split; [reflexivity|]. split; [exact (H8 eq_refl)|].
  split; [exact H2 | exact H4].
Defined.

(** X10. An upload that does not go through.  With no agent selected
    [handleFileUpload] sends nothing; with an agent selected, when
    [uploadDocument] rejects, it has sent the upload alone, and the
    summary is never asked for.  Either way it ends with the error
    [Failed to process document] and the processing flag down, and the
    message list, [hasDocument] and [currentDocument] are those of the
    render. *)
Theorem handleFileUpload_not_uploaded (b : Backend.t) (file : File.t)
    (st : State) (w : World.t) :
  (selectedAgent st = None
   \/ exists (agent : Agent.t) (reason : string),
        selectedAgent st = Some agent
        /\ fst (api_rest.uploadDocument b (Agent.id agent) file w)
           = Rejected reason) ->
  let st' := fst (run (HomeRest.handleFileUpload b file) st w) in
  error st' = Some "Failed to process document"
  /\ isProcessingDocument st' = false
  /\ messages st' = messages st
  /\ hasDocument st' = hasDocument st
  /\ currentDocument st' = currentDocument st
  /\ World.sent (snd (run (HomeRest.handleFileUpload b file) st w))
     = World.sent w
       ++ match selectedAgent st with
          | Some agent =>
              [api_rest.uploadDocument_request (Agent.id agent) file]
          | None => []
          end.
Proof.
  cbv zeta. intros [Hsel | (agent & reason & Hsel & Hrej)].
  - unfold run, HomeRest.handleFileUpload, try_catch_finally, tbind, set, call,
      HomeRest.selectedAgent_id.
    rewrite Hsel. cbn. do 5 (split; [reflexivity|]).
    now rewrite app_nil_r.
  - rewrite (handleFileUpload_run b file st agent w Hsel). cbv zeta.
    rewrite Hsel.
    assert (World.sent
              (snd (api_rest.uploadDocument b (Agent.id agent) file w))
            = World.sent w
              ++ [api_rest.uploadDocument_request (Agent.id agent) file])
      as Hsent.
    { unfold api_rest.uploadDocument, bind, fetch.
      destruct (Backend.serve_upload b _ _); reflexivity. }
    destruct (api_rest.uploadDocument b (Agent.id agent) file w)
      as [[uploaded|reason'] w1]; [discriminate Hrej|].
    do 5 (split; [reflexivity|]). exact Hsent.
Qed.

Lemma handleFileUpload_not_uploaded_witness :
  let st' :=
    fst (run (HomeRest.handleFileUpload Sample2.backend_down Sample2.notes)
           Sample2.awaiting_document Sample.world0) in
  error st' = Some "Failed to process document"
  /\ hasDocument st' = false
  /\ World.sent
       (snd (run (HomeRest.handleFileUpload Sample2.backend_down Sample2.notes)
               Sample2.awaiting_document Sample.world0))
     = [api_rest.uploadDocument_request 9 Sample2.notes]
  /\ snd (run (HomeRest.handleFileUpload Sample2.backend_up Sample2.notes)
            Home.initialState Sample.world0)
     = Sample.world0.
Proof.
  pose proof (handleFileUpload_not_uploaded Sample2.backend_down Sample2.notes
                Sample2.awaiting_document Sample.world0) as H.
  pose proof (handleFileUpload_not_uploaded Sample2.backend_up Sample2.notes
                Home.initialState Sample.world0) as H'.
  cbv zeta in H, H'.
  destruct H as (H1 & _ & _ & H4 & _ & H6).
  { right. exists Sample2.librarian, "File too large". split; reflexivity. }
  destruct H' as (_ & _ & _ & _ & _ & H6').
  { left. reflexivity. }
  split; [exact H1|]. split; [exact H4|]. split; [exact H6|].
  reflexivity.
Defined.

(** X11. A document that is uploaded and not summarised.  With an agent
    selected, when the server accepts the document and the summary query
    then rejects, [handleFileUpload] has sent both requests, yet it ends
    with [hasDocument], [currentDocument] and the message list of the
    render and the error [Failed to process document]: the page does not
    record the document the server now holds. *)
Theorem handleFileUpload_not_summarised (b : Backend.t) (file : File.t)
    (st : State) (agent : Agent.t) (w : World.t) (uploaded : Json)
    (reason : string) :
  let upload := api_rest.uploadDocument_request (Agent.id agent) file in
  let query :=
    api.queryAgent_request (Agent.id agent)
      "Please provide a brief summary of this document." None in
  selectedAgent st = Some agent ->
  Backend.serve_upload b (World.sent w) upload = HttpOk uploaded ->
  fst (api.queryAgent (Backend.env b) (Agent.id agent)
         "Please provide a brief summary of this document." None
         (Shape.after w upload)) = Rejected reason ->
  let st' := fst (run (HomeRest.handleFileUpload b file) st w) in
  World.sent (snd (run (HomeRest.handleFileUpload b file) st w))
  = World.sent w ++ [upload; query]
  /\ error st' = Some "Failed to process document"
  /\ isProcessingDocument st' = false
  /\ hasDocument st' = hasDocument st
  /\ currentDocument st' = currentDocument st
  /\ messages st' = messages st.
Proof.
  cbv zeta. intros Hsel Hupload Hrej.
  rewrite (handleFileUpload_run b file st agent w Hsel). cbv zeta.
  unfold api_rest.uploadDocument, bind, fetch.
  rewrite Hupload. cbn [expect_ok ret].
  unfold HomeRest.summary_prompt.
  pose proof (HomeSpec.queryAgent_sent (Backend.env b) (Agent.id agent)
                "Please provide a brief summary of this document." None
                (Shape.after w
                   (api_rest.uploadDocument_request (Agent.id agent) file)))
    as Hsent.
  unfold Shape.after in Hrej, Hsent.
  destruct (api.queryAgent (Backend.env b) (Agent.id agent) _ None _)
    as [[response|reason'] w2]; [discriminate Hrej|].
  cbn [fst snd] in *. split.
  - rewrite Hsent. cbn [World.sent]. now rewrite <- app_assoc.
  - repeat split.
Qed.

Lemma handleFileUpload_not_summarised_witness :
  let st' :=
    fst (run (HomeRest.handleFileUpload Sample2.backend_no_summary
                Sample2.notes)
           Sample2.awaiting_document Sample.world0) in
  World.sent
    (snd (run (HomeRest.handleFileUpload Sample2.backend_no_summary
                 Sample2.notes)
            Sample2.awaiting_document Sample.world0))
  = [api_rest.uploadDocument_request 9 Sample2.notes;
     api.queryAgent_request 9
       "Please provide a brief summary of this document." None]
  /\ hasDocument st' = false
  /\ HomeRest.content st' = HomeRest.ShowDocumentUpload.
Proof.
  pose proof (handleFileUpload_not_summarised Sample2.backend_no_summary
                Sample2.notes Sample2.awaiting_document Sample2.librarian
                Sample.world0 (JStr "stored") "Agent not found"
                eq_refl eq_refl eq_refl) as H.
  cbv zeta in H. destruct H as (H1 & _ & _ & H4 & _).
  split; [exact H1|]. split; [exact H4 | reflexivity].
Defined.

(** X12. Loading the agents.  [loadAgents] sends the one request
    [GET /agents/] and ends with the loading flag down.  When the server
    answers the list [data] the agent list is replaced by [data] with
    every type in lower case, whatever it held, and the error is the one
    of the render; when [listAgents] rejects the agent list is the one of
    the render and the error is [Failed to load agents]. *)
Theorem loadAgents_outcomes (b : Backend.t) (st : State) (w : World.t) :
  let request := Request.mk GET (API_BASE_URL +:+ "/agents/") [] None in
  let st' := fst (run (HomeRest.loadAgents b) st w) in
  snd (run (HomeRest.loadAgents b) st w) = Shape.after w request
  /\ isLoading st' = false
  /\ selectedAgent st' = selectedAgent st
  /\ (forall data : list Agent.t,
        Backend.serve_agents b (World.sent w) request = HttpOk data ->
        agents st'
        = map (fun agent =>
                 Agent.mk (Agent.id agent) (Agent.name agent)
                   (Js.toLowerCase (Agent.type agent)) (Agent.status agent)
                   (Agent.configuration agent)) data
        /\ error st' = error st)
  /\ ((forall data : list Agent.t,
         Backend.serve_agents b (World.sent w) request <> HttpOk data) ->
      agents st' = agents st
      /\ error st' = Some "Failed to load agents").
Proof.
  cbv zeta.
  unfold run, HomeRest.loadAgents, try_catch_finally, tbind, set, call,
    api_rest.listAgents, bind, fetch, Shape.after.
  destruct (Backend.serve_agents b (World.sent w) _) as [data|detail|e];
    cbn [expect_ok ret throw fst snd].
  - do 3 (split; [reflexivity|]). split.
    + intros data' Heq. injection Heq as <-. split; reflexivity.
    + intros Hne. exfalso. now apply (Hne data).
  - do 3 (split; [reflexivity|]). split.
    + intros data' Heq. discriminate Heq.
    + intros _. split; reflexivity.
  - do 3 (split; [reflexivity|]). split.
    + intros data' Heq. discriminate Heq.
    + intros _. split; reflexivity.
Qed.

Lemma loadAgents_outcomes_witness :
  agents (fst (run (HomeRest.loadAgents Sample2.backend_up) Sample.chatting
                 Sample.world0))
  = [Agent.mk 7 "Helper" "conversational" active None;
     Agent.mk 9 "Librarian" "rag" inactive None]
  /\ agents (fst (run (HomeRest.loadAgents Sample2.backend_down)
                    Sample.chatting Sample.world0))
     = [Sample.helper; Sample.coder]
  /\ error (fst (run (HomeRest.loadAgents Sample2.backend_down)
                   Sample.chatting Sample.world0))
     = Some "Failed to load agents".
Proof.
  pose proof (loadAgents_outcomes Sample2.backend_up Sample.chatting
                Sample.world0) as H.
  pose proof (loadAgents_outcomes Sample2.backend_down Sample.chatting
                Sample.world0) as H'.
  cbv zeta in H, H'.
  destruct H as (_ & _ & _ & H & _).
  destruct H' as (_ & _ & _ & _ & H').
  destruct (H Sample2.served_agents eq_refl) as [Hagents _].
  destruct H' as [Hagents' Herror']; [intros data; discriminate|].
  split; [exact Hagents|]. split; [exact Hagents' | exact Herror'].
Defined.

(** X13. What a change of selection shows.  It leaves [isCreating] as it
    was: while the creation form is open the content area goes on
    showing the form and the header goes on reading [Create New Agent].
    With the form closed, the content area shows the document upload
    whenever the agent is a [rag] agent, also when a document had been
    uploaded before the change, and the chat otherwise; the header reads
    the name of the agent. *)
Theorem selectAgent_content (agent : Agent.t) (st : State) (w : World.t) :
  let st' := fst (Home.selectAgent agent st w) in
  isCreating st' = isCreating st
  /\ (isCreating st = true ->
      HomeRest.content st' = HomeRest.ShowCreationForm
      /\ HomeRest.header st' = "Create New Agent")
  /\ (isCreating st = false ->
      HomeRest.header st' = Agent.name agent
      /\ (Agent.type agent = "rag" ->
          HomeRest.content st' = HomeRest.ShowDocumentUpload)
      /\ (Agent.type agent <> "rag" ->
          HomeRest.content st' = HomeRest.ShowChatInterface)).
Proof.
  cbv zeta.
  assert (Home.selectAgent agent st w
          = run Home.selectedAgentEffect (setSelectedAgent (Some agent) st) w)
    as -> by reflexivity.
  rewrite (HomeSpec.selectedAgentEffect_resets
             (setSelectedAgent (Some agent) st) agent w eq_refl).
  unfold HomeRest.content, HomeRest.header.
  destruct (Home.isCodingAgent agent); cbn;
    (split; [reflexivity|]); (split; [intros ->; split; reflexivity|]);
    intros ->; (split; [reflexivity|]); split.
  all: try (intros ->; reflexivity).
  all: intros Hne; apply String.eqb_neq in Hne; now rewrite Hne.
Qed.

Lemma selectAgent_content_witness :
  HomeRest.content Sample.chatting = HomeRest.ShowChatInterface
  /\ hasDocument Sample.chatting = true
  /\ HomeRest.content
       (fst (Home.selectAgent Sample2.librarian Sample.chatting Sample.world0))
     = HomeRest.ShowDocumentUpload
  /\ HomeRest.content
       (fst (Home.selectAgent Sample2.librarian Sample2.drafting
               Sample.world0))
     = HomeRest.ShowCreationForm.
Proof.
  pose proof (selectAgent_content Sample2.librarian Sample.chatting
                Sample.world0) as H.
  pose proof (selectAgent_content Sample2.librarian Sample2.drafting
                Sample.world0) as H'.
  cbv zeta in H, H'.
  destruct H as (_ & _ & H). destruct (H eq_refl) as (_ & Hrag & _).
  destruct H' as (_ & H' & _). destruct (H' eq_refl) as (Hform & _).
  split; [reflexivity|]. split; [reflexivity|].
  split; [exact (Hrag eq_refl) | exact Hform].
Defined.

(** X14. A click on a type of the sidebar.  On the type already selected
    it changes nothing: an edited draft survives it.  On another type it
    makes that type the selected type and the type of the draft and
    empties the configuration of the draft, an edited prompt template
    included; it keeps the name of the draft, the selected tools and the
    tool-manager flag, and it neither opens nor closes the form. *)
Theorem selectType_draft (type : AgentType) (st : State) (w : World.t) :
  let st' := fst (HomeRest.selectType type st w) in
  snd (HomeRest.selectType type st w) = w
  /\ selectedType st' = type
  /\ (type = selectedType st -> st' = st)
  /\ (type <> selectedType st ->
      newAgent st' = NewAgent.mk (NewAgent.name (newAgent st)) type ∅
      /\ selectedTools st' = selectedTools st
      /\ showToolManager st' = showToolManager st
      /\ isCreating st' = isCreating st
      /\ selectedAgent st' = selectedAgent st
      /\ messages st' = messages st).
Proof.
  cbv zeta. unfold HomeRest.selectType, HomeRest.onTypeSelect.
  change (run (fun _ : State => set (setSelectedType type)) st w)
    with (setSelectedType type st, w).
  cbv iota beta.
  destruct (AgentType_eqb type (selectedType st)) eqn:E.
  - assert (type = selectedType st) as Heq
      by (destruct type, (selectedType st); (reflexivity || discriminate E)).
    split; [reflexivity|]. split; [reflexivity|]. split.
    + intros _. rewrite Heq. destruct st; reflexivity.
    + intros Hne. contradiction.
  - split; [reflexivity|]. split; [reflexivity|]. split.
    + intros Heq. rewrite Heq in E.
      destruct (selectedType st); discriminate E.
    + intros _. repeat split.
Qed.

Lemma selectType_draft_witness :
  let edited :=
    setNewAgent
      (NewAgent.mk "Helper" conversational
         {[ "prompt_template" := JStr "Be brief: {input}" ]})
      Sample2.drafting in
  fst (HomeRest.selectType conversational edited Sample.world0) = edited
  /\ newAgent (fst (HomeRest.selectType rag edited Sample.world0))
     = NewAgent.mk "Helper" rag ∅.
Proof.
  cbv zeta.
  pose proof (selectType_draft conversational
                (setNewAgent
                   (NewAgent.mk "Helper" conversational
                      {[ "prompt_template" := JStr "Be brief: {input}" ]})
                   Sample2.drafting) Sample.world0) as H.
  pose proof (selectType_draft rag
                (setNewAgent
                   (NewAgent.mk "Helper" conversational
                      {[ "prompt_template" := JStr "Be brief: {input}" ]})
                   Sample2.drafting) Sample.world0) as H'.
  cbv zeta in H, H'.
  destruct H as (_ & _ & H & _). destruct H' as (_ & _ & _ & H').
  split; [exact (H eq_refl)|].
  destruct H' as (Hdraft & _); [discriminate | exact Hdraft].
Defined.

End HomeRestSpec.

(** ** The tools of the creation form *)

Module FormSpec.

Lemma find_name_none (name : string) (l : list SelectedTool.t) :
  List.find (fun t => String.eqb (SelectedTool.name t) name) l = None
  <-> ~ In name (map SelectedTool.name l).
Proof.
  induction l as [|t l IH]; simpl.
  - split; [intros _ [] | reflexivity].
  - destruct (String.eqb (SelectedTool.name t) name) eqn:E.
    + apply String.eqb_eq in E. split; [discriminate | intros H].
      exfalso. apply H. now left.
    + apply String.eqb_neq in E. rewrite IH. split.
      * intros H [Heq | Hin]; [contradiction | contradiction].
      * intros H Hin. apply H. now right.
Qed.

Lemma filter_other_names (name : string) (l : list SelectedTool.t) :
  ~ In name (map SelectedTool.name l) ->
  List.filter (fun t => negb (String.eqb (SelectedTool.name t) name)) l = l.
Proof.
  induction l as [|t l IH]; simpl; [reflexivity|].
  intros H.
  destruct (String.eqb (SelectedTool.name t) name) eqn:E.
  - apply String.eqb_eq in E. exfalso. apply H. now left.
  - simpl. rewrite IH; [reflexivity|]. intros Hin. apply H. now right.
Qed.

(** X15. Selecting a tool in the tool manager.  A tool whose name is
    already among the selected tools changes nothing; any other tool is
    appended, by its name and description, after the tools selected so
    far.  So selections alone never give two selected tools the same
    name. *)
Theorem onToolSelect_distinct (tool : Tool.t) (st : State) (w : World.t) :
  let st' := fst (run (FormTools.onToolSelect tool) st w) in
  snd (run (FormTools.onToolSelect tool) st w) = w
  /\ (In (Tool.name tool) (map SelectedTool.name (selectedTools st)) ->
      st' = st)
  /\ (~ In (Tool.name tool) (map SelectedTool.name (selectedTools st)) ->
      selectedTools st'
      = selectedTools st
        ++ [SelectedTool.mk (Tool.name tool) (Tool.description tool)])
  /\ (List.NoDup (map SelectedTool.name (selectedTools st)) ->
      List.NoDup (map SelectedTool.name (selectedTools st'))).
Proof.
  cbv zeta. unfold run, FormTools.onToolSelect.
  destruct (List.find _ (selectedTools st)) as [found|] eqn:Hfind.
  - assert (In (Tool.name tool) (map SelectedTool.name (selectedTools st)))
      as Hin.
    { destruct (in_dec String.string_dec (Tool.name tool)
                  (map SelectedTool.name (selectedTools st)))
        as [Hin|Hnin]; [exact Hin|].
      apply find_name_none in Hnin. congruence. }
    cbn. split; [reflexivity|]. split; [reflexivity|].
    split; [intros Hnin; contradiction | intros H; exact H].
  - apply find_name_none in Hfind.
    cbn. split; [reflexivity|]. split; [intros Hin; contradiction|].
    split; [reflexivity|].
    intros Hnodup. rewrite map_app. cbn.
    apply List.NoDup_app.
    + exact Hnodup.
    + constructor; [intros [] | constructor].
    + intros x Hx [<- | []]. contradiction.
Qed.

Lemma onToolSelect_distinct_witness :
  fst (run (FormTools.onToolSelect Sample.multiply) Sample2.managing_tools
         Sample.world0)
  = Sample2.managing_tools
  /\ selectedTools
       (fst (run (FormTools.onToolSelect Sample.weather)
               Sample2.managing_tools Sample.world0))
     = [Sample2.calculator;
        SelectedTool.mk "weather" "Look up the weather"].
Proof.
  pose proof (onToolSelect_distinct Sample.multiply Sample2.managing_tools
                Sample.world0) as H.
  pose proof (onToolSelect_distinct Sample.weather Sample2.managing_tools
                Sample.world0) as H'.
  cbv zeta in H, H'.
  destruct H as (_ & H & _). destruct H' as (_ & _ & H' & _).
  split.
  - apply H. left. reflexivity.
  - apply H'. intros [Heq | []]. discriminate Heq.
Defined.

(** X16. Removing a selected tool.  [removeSelectedTool] leaves no
    selected tool of that name, keeps exactly the selected tools of
    every other name, and touches nothing but the selected tools.
    Removing the name of a tool just after selecting that tool, when it
    was not selected before, gives back the selected tools one started
    from. *)
Theorem removeSelectedTool_removes (toolName : string) (st : State)
    (w : World.t) :
  let st' := fst (run (FormTools.removeSelectedTool toolName) st w) in
  st' = setSelectedTools (selectedTools st') st
  /\ ~ In toolName (map SelectedTool.name (selectedTools st'))
  /\ (forall t : SelectedTool.t,
        In t (selectedTools st')
        <-> In t (selectedTools st) /\ SelectedTool.name t <> toolName)
  /\ (forall tool : Tool.t,
        Tool.name tool = toolName ->
        ~ In toolName (map SelectedTool.name (selectedTools st)) ->
        selectedTools
          (fst (run (FormTools.removeSelectedTool toolName)
                  (fst (run (FormTools.onToolSelect tool) st w)) w))
        = selectedTools st).
Proof.
  cbv zeta.
  assert (forall s : State,
            fst (run (FormTools.removeSelectedTool toolName) s w)
            = setSelectedTools
                (List.filter
                   (fun t => negb (String.eqb (SelectedTool.name t) toolName))
                   (selectedTools s)) s) as Hrun by reflexivity.
  split; [|split; [|split]].
  - rewrite Hrun. reflexivity.
  - rewrite Hrun. cbn [selectedTools setSelectedTools].
    rewrite in_map_iff. intros (t & Hname & Hin).
    apply filter_In in Hin. destruct Hin as [_ Hneq].
    apply negb_true_iff, String.eqb_neq in Hneq. contradiction.
  - intros t. rewrite Hrun. cbn [selectedTools setSelectedTools].
    rewrite filter_In, negb_true_iff, String.eqb_neq. reflexivity.
  - intros tool Hname Hnin. rewrite Hrun.
    change (selectedTools (setSelectedTools ?l ?s)) with l.
    assert (selectedTools (fst (run (FormTools.onToolSelect tool) st w))
            = selectedTools st
              ++ [SelectedTool.mk (Tool.name tool) (Tool.description tool)])
      as ->.
    { unfold run, FormTools.onToolSelect.
      rewrite <- Hname in Hnin. apply find_name_none in Hnin.
      rewrite Hnin. reflexivity. }
    rewrite List.filter_app, FormSpec.filter_other_names by exact Hnin.
    cbn. rewrite Hname, String.eqb_refl. cbn. apply app_nil_r.
Qed.

Lemma removeSelectedTool_removes_witness :
  selectedTools
    (fst (run (FormTools.removeSelectedTool "weather")
            (fst (run (FormTools.onToolSelect Sample.weather)
                    Sample2.managing_tools Sample.world0)) Sample.world0))
  = [Sample2.calculator].
Proof.
  pose proof (removeSelectedTool_removes "weather" Sample2.managing_tools
                Sample.world0) as H.
  cbv zeta in H. destruct H as (_ & _ & _ & H).
  apply (H Sample.weather eq_refl).
  intros [Heq | []]. discriminate Heq.
Defined.

(** X17. Creating a tool does not look at the names.  [onToolCreate]
    appends the created tool to the selected tools even when a tool of
    that name is selected already: the names are then no longer
    distinct, and the [tools] of the configuration handed to
    [createAgent] hold the name twice.  One [removeSelectedTool] of that
    name removes both. *)
Theorem onToolCreate_may_duplicate (tool : Tool.t) (st : State) (w : World.t) :
  In (Tool.name tool) (map SelectedTool.name (selectedTools st)) ->
  let st' := fst (run (FormTools.onToolCreate tool) st w) in
  map SelectedTool.name (selectedTools st')
  = map SelectedTool.name (selectedTools st) ++ [Tool.name tool]
  /\ ~ List.NoDup (map SelectedTool.name (selectedTools st'))
  /\ ~ In (Tool.name tool)
        (map SelectedTool.name
           (selectedTools
              (fst (run (FormTools.removeSelectedTool (Tool.name tool))
                      st' w)))).
Proof.
  intros Hin. cbv zeta.
  assert (selectedTools (fst (run (FormTools.onToolCreate tool) st w))
          = selectedTools st ++ [FormTools.selected_of tool]) as ->
    by reflexivity.
  split; [now rewrite map_app|]. split.
  - rewrite map_app. cbn. intros Hnodup.
    apply List.NoDup_remove_2 in Hnodup. apply Hnodup.
    rewrite app_nil_r. exact Hin.
  - change (selectedTools
              (fst (run (FormTools.removeSelectedTool (Tool.name tool))
                      (fst (run (FormTools.onToolCreate tool) st w)) w)))
      with (List.filter
              (fun t => negb (String.eqb (SelectedTool.name t)
                                (Tool.name tool)))
              (selectedTools st ++ [FormTools.selected_of tool])).
    rewrite in_map_iff. intros (t & Hname & Ht).
    apply filter_In in Ht. destruct Ht as [_ Hneq].
    apply negb_true_iff, String.eqb_neq in Hneq. contradiction.
Qed.

Lemma onToolCreate_may_duplicate_witness :
  map SelectedTool.name
    (selectedTools
       (fst (run (FormTools.onToolCreate Sample.multiply)
               Sample2.managing_tools Sample.world0)))
  = ["multiply"; "multiply"].
Proof.
  pose proof (onToolCreate_may_duplicate Sample.multiply
                Sample2.managing_tools Sample.world0) as H.
  cbv zeta in H. destruct H as (H & _).
  - left. reflexivity.
  - exact H.
Defined.

(** X18. The submit button and the checks behind it.  Whenever the
    submit button is enabled, [handleCreateAgent] sends exactly one
    request, the creation of the draft: neither its own tool check nor
    the name check of [createAgent] can stop it. *)
Theorem submit_enabled_sends (env : Env.t) (st : State) (w : World.t) :
  FormTools.submitDisabled st = false ->
  World.sent (snd (run (Home.handleCreateAgent env) st w))
  = World.sent w ++ [api.createAgent_request (Home.agentData st)].
Proof.
  unfold FormTools.submitDisabled. intros Henabled.
  apply orb_false_iff in Henabled. destruct Henabled as [Henabled Htools].
  apply orb_false_iff in Henabled. destruct Henabled as [_ Hname].
  apply negb_false_iff in Hname.
  rewrite (HomeRestSpec.handleCreateAgent_run env st w Htools). cbv zeta.
  unfold api.createAgent.
  rewrite HomeRestSpec.agentData_named
    by (intros Heq; rewrite Heq in Hname; discriminate Hname).
  unfold bind, fetch.
  destruct (Env.serve_agent env _ _) as [data|detail|e]; reflexivity.
Qed.

Lemma submit_enabled_sends_witness :
  World.sent (snd (run (Home.handleCreateAgent Sample.env_down)
                     Sample2.drafting_calculator Sample.world0))
  = [api.createAgent_request (Home.agentData Sample2.drafting_calculator)].
Proof.
  apply (submit_enabled_sends Sample.env_down Sample2.drafting_calculator
           Sample.world0).
  reflexivity.
Defined.

End FormSpec.

(** ** The lists of the tool manager *)

Module ToolManagerSpec.

Lemma filter_partition {A : Type} (f : A -> bool) (l : list A) :
  Permutation (List.filter f l ++ List.filter (fun x => negb (f x)) l) l.
Proof.
  induction l as [|x l IH]; simpl; [constructor|].
  destruct (f x); simpl.
  - now constructor.
  - rewrite <- Permutation_middle. now constructor.
Qed.

Lemma listTools_resolved (env : Env.t) (w : World.t) (tools : list Tool.t) :
  fst (api.listTools env w) = Resolved tools ->
  exists data : list Tool.t,
    tools
    = map (fun tool => Tool.set_is_sample (api.sample_flag tool) tool) data.
Proof.
  unfold api.listTools, bind, fetch. simpl.
  destruct (Env.serve_tools env _ _) as [data|detail|e]; simpl;
    intros H; inversion H. now exists data.
Qed.

(** X19. The two lists of the tool manager.  Of the tools [listTools]
    resolves to, the sample tools and the custom tools together are
    those tools, each in one list only; every tool named [multiply] or
    [add] is a sample tool, and a custom tool has neither name and has
    [is_sample] false.  A tool [createTool] or [createToolFromCode]
    resolves to is a custom tool of the list it is appended to, and not
    a sample tool, whatever its name. *)
Theorem tool_lists (env : Env.t) (w : World.t) (tools : list Tool.t) :
  fst (api.listTools env w) = Resolved tools ->
  Permutation
    (ToolManager.getSampleTools tools ++ ToolManager.getCustomTools tools)
    tools
  /\ (forall tool : Tool.t,
        In tool (ToolManager.getSampleTools tools) ->
        ~ In tool (ToolManager.getCustomTools tools))
  /\ (forall tool : Tool.t,
        In tool tools ->
        Tool.name tool = "multiply" \/ Tool.name tool = "add" ->
        In tool (ToolManager.getSampleTools tools))
  /\ (forall tool : Tool.t,
        In tool (ToolManager.getCustomTools tools) ->
        Tool.name tool <> "multiply" /\ Tool.name tool <> "add"
        /\ Tool.is_sample tool = Some false)
  /\ (forall (w2 : World.t) (created : Tool.t),
        (exists request,
           fst (api.createTool env request w2) = Resolved created)
        \/ (exists request,
              fst (api.createToolFromCode env request w2) = Resolved created) ->
        In created (ToolManager.getCustomTools (tools ++ [created]))
        /\ ~ In created (ToolManager.getSampleTools (tools ++ [created]))).
Proof.
  intros Hlist. destruct (listTools_resolved env w tools Hlist) as [data ->].
  unfold ToolManager.getSampleTools, ToolManager.getCustomTools.
  split; [apply filter_partition|]. split; [|split; [|split]].
  - intros tool Hs Hc. apply filter_In in Hs, Hc.
    destruct Hs as [_ Hs]. destruct Hc as [_ Hc]. rewrite Hs in Hc.
    discriminate Hc.
  - intros tool Hin Hname. apply filter_In. split; [exact Hin|].
    apply in_map_iff in Hin. destruct Hin as (orig & <- & _).
    unfold ToolManager.is_sample_truthy. cbn in *.
    assert (api.sample_flag orig = true) as ->; [|reflexivity].
    apply ApiSpec.sample_flag_spec. tauto.
  - intros tool Hin. apply filter_In in Hin. destruct Hin as [Hin Hflag].
    apply in_map_iff in Hin. destruct Hin as (orig & <- & _).
    unfold ToolManager.is_sample_truthy in Hflag. cbn in *.
    destruct (api.sample_flag orig) eqn:E; [discriminate Hflag|].
    split; [|split; [|reflexivity]]; intros Hname;
      assert (api.sample_flag orig = true) as E'
        by (apply ApiSpec.sample_flag_spec; tauto);
      congruence.
  - intros w2 created Hcreated.
    assert (Tool.is_sample created = Some false) as Hflag.
    { destruct Hcreated as [[request H] | [request H]];
        unfold api.createTool, api.createToolFromCode, bind, fetch in H;
        simpl in H;
        destruct (Env.serve_tool env _ _) as [d|detail|e]; simpl in H;
        inversion H; reflexivity. }
    split.
    + apply filter_In. split; [apply in_or_app; right; now left|].
      unfold ToolManager.is_sample_truthy. now rewrite Hflag.
    + intros Hin. apply filter_In in Hin. destruct Hin as [_ Hin].
      unfold ToolManager.is_sample_truthy in Hin. rewrite Hflag in Hin.
      discriminate Hin.
Qed.

Lemma tool_lists_witness :
  exists tools : list Tool.t,
    fst (api.listTools Sample.env_up Sample.world0) = Resolved tools
    /\ map Tool.name (ToolManager.getSampleTools tools)
       = ["multiply"; "divide"]
    /\ map Tool.name (ToolManager.getCustomTools tools) = ["weather"]
    /\ Permutation
         (ToolManager.getSampleTools tools ++ ToolManager.getCustomTools tools)
         tools.
Proof.
  eexists. split; [reflexivity|]. split; [reflexivity|].
  split; [reflexivity|].
  apply (tool_lists Sample.env_up Sample.world0). reflexivity.
Defined.

End ToolManagerSpec.

(** ** Sessions of the creation form *)

Module SessionSpec.

Lemma draft_ok_same_draft (st st' : State) :
  newAgent st' = newAgent st -> Session.draft_ok st -> Session.draft_ok st'.
Proof. unfold Session.draft_ok. now intros ->. Qed.

Lemma draft_ok_empty (st : State) :
  NewAgent.configuration (newAgent st) = ∅ -> Session.draft_ok st.
Proof. intros H. now left. Qed.

Lemma handle_draft_ok (e : Session.Event) (st : State) :
  Session.enabled e st = true ->
  Session.draft_ok st -> Session.draft_ok (Session.handle e st).
Proof.
  intros Henabled Hok.
  destruct e as [ | type | value | type | value | | toolName | | | tool | tool];
    cbn [Session.handle].
  - (* CreateClick *) now apply draft_ok_empty.
  - (* TypeSelect *)
    unfold HomeRest.selectType, HomeRest.onTypeSelect.
    change (run (fun _ : State => set (setSelectedType type)) st Session.nowhere)
      with (setSelectedType type st, Session.nowhere).
    cbv iota beta.
    destruct (AgentType_eqb type (selectedType st)).
    + now apply (draft_ok_same_draft st).
    + now apply draft_ok_empty.
  - (* NameInput *)
    destruct Hok as [Hempty | (Htype & template & Hcfg)].
    + now left.
    + right. split; [exact Htype|]. now exists template.
  - (* TypeChange *)
    destruct type.
    + right. split; [reflexivity|].
      now exists AgentCreationForm.default_prompt_template.
    + now apply draft_ok_empty.
    + now apply draft_ok_empty.
    + now apply draft_ok_empty.
  - (* PromptInput *)
    cbn [Session.enabled] in Henabled.
    apply andb_true_iff in Henabled. destruct Henabled as [_ Htype].
    assert (NewAgent.type (newAgent st) = conversational) as Hconv
      by (destruct (NewAgent.type (newAgent st));
          (reflexivity || discriminate Htype)).
    right. split; [exact Hconv|]. exists value.
    change (NewAgent.configuration
              (newAgent
                 (fst (run (AgentCreationForm.handlePromptChange value) st
                         Session.nowhere))))
      with (<["prompt_template" := JStr value]>
              (NewAgent.configuration (newAgent st))).
    destruct Hok as [-> | (_ & template & ->)].
    + apply insert_empty.
    + apply insert_singleton_eq.
  - (* ManageTools *) now apply (draft_ok_same_draft st).
  - (* RemoveTool *) now apply (draft_ok_same_draft st).
  - (* CancelClick *) now apply draft_ok_empty.
  - (* BackToCreation *) now apply (draft_ok_same_draft st).
  - (* ToolSelect *)
    apply (draft_ok_same_draft st); [|exact Hok].
    unfold run, FormTools.onToolSelect.
    destruct (List.find _ (selectedTools st)); reflexivity.
  - (* ToolCreate *) now apply (draft_ok_same_draft st).
Qed.

Lemma replay_draft_ok (events : list Session.Event) (st : State) :
  Session.draft_ok st -> Session.draft_ok (Session.replay events st).
Proof.
  revert st. induction events as [|e events IH]; intros st Hok; [exact Hok|].
  cbn [Session.replay fold_left]. apply IH.
  unfold Session.step. destruct (Session.enabled e st) eqn:E; [|exact Hok].
  now apply handle_draft_ok.
Qed.

(** X20. What a session can leave in the draft.  After any sequence of
    the events of the sidebar types and of the creation form, each
    counted only when its control is shown and enabled, a draft that is
    not conversational has the empty configuration, and a conversational
    draft has the empty configuration or one prompt template and no
    other key.  So what [handleCreateAgent] hands to [createAgent] has
    the empty configuration for a [rag] or [coding] draft, exactly the
    two keys [tools] and [prompt_template] for a [tool_calling] draft,
    and at most a prompt template for a conversational one. *)
Theorem session_configuration (events : list Session.Event) :
  let st := Session.replay events Session.mounted in
  Session.draft_ok st
  /\ (NewAgent.type (newAgent st) = rag
      \/ NewAgent.type (newAgent st) = coding ->
      PartialAgent.configuration (Home.agentData st) = Some ∅)
  /\ (NewAgent.type (newAgent st) = tool_calling ->
      PartialAgent.configuration (Home.agentData st)
      = Some (<["tools" :=
                  JArr (map (fun tool => JStr (SelectedTool.name tool))
                          (selectedTools st))]>
                {[ "prompt_template" :=
                     JStr (Home.tool_prompt_template (selectedTools st)) ]}))
  /\ (NewAgent.type (newAgent st) = conversational ->
      PartialAgent.configuration (Home.agentData st) = Some ∅
      \/ exists template : string,
           PartialAgent.configuration (Home.agentData st)
           = Some {[ "prompt_template" := JStr template ]}).
Proof.
  cbv zeta.
  assert (Session.draft_ok (Session.replay events Session.mounted)) as Hok
    by (apply replay_draft_ok; now left).
  set (st := Session.replay events Session.mounted) in *.
  split; [exact Hok|].
  unfold Home.agentData. cbn [PartialAgent.configuration].
  split; [|split].
  - intros Htype.
    destruct Hok as [-> | (Hconv & _)];
      [|destruct Htype as [H|H]; rewrite H in Hconv; discriminate Hconv].
    destruct Htype as [-> | ->]; cbn; now rewrite (left_id_L ∅ (∪)).
  - intros Htype.
    destruct Hok as [-> | (Hconv & _)];
      [|rewrite Htype in Hconv; discriminate Hconv].
    rewrite Htype. cbn. now rewrite (right_id_L ∅ (∪)).
  - intros Htype. rewrite Htype. cbn. rewrite (left_id_L ∅ (∪)).
    destruct Hok as [-> | (_ & template & ->)]; [now left|].
    right. now exists template.
Qed.

Lemma session_configuration_witness :
  let st := Session.replay Sample2.session Session.mounted in
  NewAgent.type (newAgent st) = conversational
  /\ NewAgent.name (newAgent st) = "Helper"
  /\ PartialAgent.configuration (Home.agentData st)
     = Some {[ "prompt_template" := JStr "Be kind: {input}" ]}.
Proof.
  cbv zeta.
  destruct (session_configuration Sample2.session) as (_ & _ & _ & H).
  assert (NewAgent.type
            (newAgent (Session.replay Sample2.session Session.mounted))
          = conversational) as Htype by reflexivity.
  split; [exact Htype|]. split; [reflexivity|].
  destruct (H Htype) as [Hempty | (template & Hone)].
  - exfalso.
    assert (PartialAgent.configuration
              (Home.agentData
                 (Session.replay Sample2.session Session.mounted))
            ≫= (fun c => c !! "prompt_template")
            = Some (JStr "Be kind: {input}")) as Hlook by reflexivity.
    rewrite Hempty in Hlook. cbn in Hlook. rewrite lookup_empty in Hlook.
    discriminate Hlook.
  - rewrite Hone.
    assert (PartialAgent.configuration
              (Home.agentData
                 (Session.replay Sample2.session Session.mounted))
            ≫= (fun c => c !! "prompt_template")
            = Some (JStr "Be kind: {input}")) as Hlook by reflexivity.
    rewrite Hone in Hlook. cbn in Hlook.
    rewrite lookup_singleton_eq in Hlook. injection Hlook as ->. reflexivity.
Defined.

End SessionSpec.

(** ** Short histories and untouched drafts *)

Module MoreSpec.

(** X21. A short history is sent whole.  When the message list of the
    render has one to five entries, the query of a send is [Chat
    history:], a line feed, every message of the list in order, each as
    [User: <content>] or [Assistant: <content>] and separated by line
    feeds, two line feeds, [New message:], a line feed and the typed
    message. *)
Theorem handleMessageSend_short_history (env : Env.t) (st : State)
    (agent : Agent.t) (w : World.t) :
  selectedAgent st = Some agent ->
  Js.blank (message st) = false ->
  messages st <> [] ->
  List.length (messages st) <= 5 ->
  World.sent (snd (run (Home.handleMessageSend env) st w))
  = World.sent w
    ++ [api.queryAgent_request (Agent.id agent)
          ("Chat history:" +:+ Js.LF
           +:+ Js.join Js.LF (map Spec.labelled (messages st))
           +:+ Js.LF +:+ Js.LF +:+ "New message:" +:+ Js.LF +:+ message st)
          (Home.queryContext st agent)].
Proof.
  intros Hsel Hblank Hne Hlen.
  rewrite (HomeSpec.handleMessageSend_sent env st agent w Hsel Hblank).
  do 3 f_equal.
  unfold Home.messageWithHistory, Home.lastFiveMessages, Js.slice_last.
  replace (List.length (messages st) - 5) with 0 by lia.
  rewrite drop_0.
  rewrite (map_ext _ _ HomeSpec.formatMessage_labelled).
  destruct (messages st) as [|m rest]; [contradiction|].
  cbn [map].
  rewrite JsFacts.join_cons_truthy
    by (unfold Spec.labelled; destruct (Message.role m); reflexivity).
  reflexivity.
Qed.

Lemma handleMessageSend_short_history_witness :
  World.sent
    (snd (run (Home.handleMessageSend Sample.env_up)
            (setMessages [Sample.msg user "one"; Sample.msg assistant "two"]
               Sample.chatting) Sample.world0))
  = [api.queryAgent_request 7
       ("Chat history:" +:+ Js.LF
        +:+ "User: one" +:+ Js.LF +:+ "Assistant: two"
        +:+ Js.LF +:+ Js.LF +:+ "New message:" +:+ Js.LF +:+ "seven")
       None].
Proof.
  apply (handleMessageSend_short_history Sample.env_up
           (setMessages [Sample.msg user "one"; Sample.msg assistant "two"]
              Sample.chatting) Sample.helper Sample.world0).
  - reflexivity.
  - reflexivity.
  - discriminate.
  - cbn. lia.
Defined.

Lemma handle_keeps_empty (e : Session.Event) (st : State) :
  match e with
  | Session.TypeChange _ | Session.PromptInput _ => False
  | _ => True
  end ->
  NewAgent.configuration (newAgent st) = ∅ ->
  NewAgent.configuration (newAgent (Session.handle e st)) = ∅.
Proof.
  intros Hkind Hempty.
  destruct e as [ | type | value | type | value | | toolName | | | tool | tool];
    cbn [Session.handle]; try contradiction; try exact Hempty;
    try reflexivity.
  - unfold HomeRest.selectType, HomeRest.onTypeSelect.
    change (run (fun _ : State => set (setSelectedType type)) st Session.nowhere)
      with (setSelectedType type st, Session.nowhere).
    cbv iota beta.
    destruct (AgentType_eqb type (selectedType st)); [exact Hempty|reflexivity].
  - unfold run, FormTools.onToolSelect.
    destruct (List.find _ (selectedTools st)); exact Hempty.
Qed.

(** X22. Where the default prompt template can come from.  After any
    session that holds no change of the type selector of the form and no
    edit of the prompt, whatever else it holds (opening and cancelling
    the form, typing names, clicking types of the sidebar, managing
    tools), the draft has the empty configuration: for a conversational
    draft the text area shows the default template while the
    configuration handed to [createAgent] has no [prompt_template]. *)
Theorem untouched_session_empty_configuration (events : list Session.Event) :
  Forall (fun e => match e with
                   | Session.TypeChange _ | Session.PromptInput _ => False
                   | _ => True
                   end) events ->
  let st := Session.replay events Session.mounted in
  NewAgent.configuration (newAgent st) = ∅
  /\ AgentCreationForm.shown_prompt_template st
     = JStr AgentCreationForm.default_prompt_template
  /\ (NewAgent.type (newAgent st) = conversational ->
      PartialAgent.configuration (Home.agentData st) = Some ∅).
Proof.
  intros Hevents. cbv zeta.
  assert (forall st : State,
            NewAgent.configuration (newAgent st) = ∅ ->
            NewAgent.configuration
              (newAgent (Session.replay events st)) = ∅) as Hkeep.
  { induction Hevents as [|e events He Hevents IH]; intros st Hempty;
      [exact Hempty|].
    cbn [Session.replay fold_left]. apply IH.
    unfold Session.step. destruct (Session.enabled e st); [|exact Hempty].
    now apply handle_keeps_empty. }
  assert (NewAgent.configuration
            (newAgent (Session.replay events Session.mounted)) = ∅) as Hempty
    by (apply Hkeep; reflexivity).
  split; [exact Hempty|]. split.
  - unfold AgentCreationForm.shown_prompt_template.
    now rewrite Hempty, lookup_empty.
  - intros Htype. unfold Home.agentData. rewrite Htype, Hempty. cbn.
    now rewrite (left_id_L ∅ (∪)).
Qed.

Lemma untouched_session_empty_configuration_witness :
  let st :=
    Session.replay
      [Session.TypeSelect rag; Session.CreateClick;
       Session.TypeSelect conversational; Session.NameInput "Helper"]
      Session.mounted in
  newAgent st = NewAgent.mk "Helper" conversational ∅
  /\ PartialAgent.configuration (Home.agentData st) = Some ∅.
Proof.
  cbv zeta.
  destruct (untouched_session_empty_configuration
              [Session.TypeSelect rag; Session.CreateClick;
               Session.TypeSelect conversational; Session.NameInput "Helper"])
    as (_ & _ & H).
  - repeat constructor.
  - split; [reflexivity|]. apply H. reflexivity.
Defined.

End MoreSpec.
